(** * A shallow embedding of [main.py]: the unit-test / documentation
      generation pipeline and its change-driven dispatcher.

    Python [str] values are modelled as Rocq [string]s (one [ascii] per
    character, code points below 256), Python lists as [list], the [dict]
    returned by the catalog and by [get_modified_code_files] as association
    lists in insertion order, and the file system as a finite map from
    paths to nodes.  The external collaborators (the chat completion
    service, [ast.parse], [git diff], the code catalog) are parameters of
    the development. *)

From Stdlib Require Import ZArith QArith Ascii.
From stdpp Require Import gmap strings list.

(** ** Python string primitives used by the program *)

Module PyStr.

(** [s.startswith(p)] *)
Fixpoint startswith (s p : string) {struct p} : bool :=
  match p with
  | EmptyString => true
  | String a p' =>
      match s with
      | EmptyString => false
      | String b s' => if Ascii.eqb a b then startswith s' p' else false
      end
  end.

(** [sub in s] *)
Fixpoint contains (s sub : string) {struct s} : bool :=
  startswith s sub ||
  match s with
  | EmptyString => false
  | String _ s' => contains s' sub
  end.

(** [s[:n]] and [s[n:]] for a non-negative [n]. *)
Fixpoint take (n : nat) (s : string) : string :=
  match n, s with
  | S n', String c s' => String c (take n' s')
  | _, _ => EmptyString
  end.

Fixpoint drop (n : nat) (s : string) : string :=
  match n, s with
  | S n', String _ s' => drop n' s'
  | _, _ => s
  end.

(** [s[-n:]] for a positive [n]: the last [n] characters, the whole string
    when it is shorter. *)
Definition last_n (n : nat) (s : string) : string :=
  drop (String.length s - n) s.

(** [s[::-1]] *)
Definition reversed (s : string) : string := String.rev s.

(** The optional [count] argument of [str.replace]: [None] when it is
    omitted (replace every occurrence). *)
Definition may_replace (count : option nat) : bool :=
  match count with
  | Some 0 => false
  | _ => true
  end.

Definition dec_count (count : option nat) : option nat :=
  option_map Nat.pred count.

(** Left-to-right scan for non-overlapping occurrences of a non-empty [old];
    [skip] counts the characters of a replaced occurrence still to pass. *)
Fixpoint replace_go (old new : string) (skip : nat) (count : option nat)
    (s : string) {struct s} : string :=
  match s with
  | EmptyString => EmptyString
  | String c s' =>
      match skip with
      | S k => replace_go old new k count s'
      | 0 =>
          if may_replace count && startswith s old
          then new +:+ replace_go old new (String.length old - 1) (dec_count count) s'
          else String c (replace_go old new 0 count s')
      end
  end.

(** Python replaces the empty string at every position, ends included. *)
Fixpoint replace_empty (new : string) (count : option nat) (s : string)
    {struct s} : string :=
  if may_replace count then
    new +:+
    match s with
    | EmptyString => EmptyString
    | String c s' => String c (replace_empty new (dec_count count) s')
    end
  else s.

(** [s.replace(old, new)] and [s.replace(old, new, count)] *)
Definition replace (s old new : string) (count : option nat) : string :=
  match old with
  | EmptyString => replace_empty new count s
  | String _ _ => replace_go old new 0 count s
  end.

(** [s.split(sep)] for a one-character separator, the only kind the
    program uses. *)
Fixpoint split (s : string) (sep : ascii) : list string :=
  match s with
  | EmptyString => [EmptyString]
  | String c s' =>
      if Ascii.eqb c sep then EmptyString :: split s' sep
      else match split s' sep with
           | [] => [String c EmptyString]
           | h :: t => String c h :: t
           end
  end.

(** [sep.join(parts)] *)
Definition join (sep : string) (parts : list string) : string :=
  String.concat sep parts.

(** [c.isspace()] for code points below 256. *)
Definition isspace (c : ascii) : bool :=
  let n := nat_of_ascii c in
  ((9 <=? n) && (n <=? 13)) || ((28 <=? n) && (n <=? 32))
  || (n =? 133) || (n =? 160).

Fixpoint lstrip (s : string) : string :=
  match s with
  | EmptyString => EmptyString
  | String c s' => if isspace c then lstrip s' else s
  end.

Definition rstrip (s : string) : string :=
  String.rev (lstrip (String.rev s)).

(** [s.strip()] *)
Definition strip (s : string) : string := rstrip (lstrip s).

(** [s.partition(sep)] restricted to the case where [sep] occurs: the text
    before the first occurrence and the text after it. *)
Fixpoint partition (s sep : string) {struct s} : option (string * string) :=
  if startswith s sep then Some (EmptyString, drop (String.length sep) s)
  else match s with
       | EmptyString => None
       | String c s' =>
           match partition s' sep with
           | Some (before, after) => Some (String c before, after)
           | None => None
           end
       end.

End PyStr.

(** ** Artifact path: [file_path[::-1].replace("\\", "/test_", 1)[::-1]]
    (the same expression at lines 238 and 286). *)

Definition backslash : string := String "092"%char EmptyString.

Definition unit_test_path (file_path : string) : string :=
  PyStr.reversed
    (PyStr.replace (PyStr.reversed file_path) backslash "/test_" (Some 1)).

(** ** [extract_all_python_code] *)

Definition start_marker : string := "```python".
Definition end_marker : string := "```".

(** [re.compile(f"{start_marker}(.*?)({end_marker})", re.DOTALL).findall]:
    the non-overlapping matches from left to right; each match starts at the
    next start marker and, the group being lazy and [.] matching every
    character, ends at the first end marker after it.  Only the first group
    ([match[0]]) is kept.  Every match consumes at least one character, so
    [String.length s] rounds are enough. *)
Fixpoint findall_go (fuel : nat) (s : string) : list string :=
  match fuel with
  | 0 => []
  | S fuel' =>
      match PyStr.partition s start_marker with
      | None => []
      | Some (_, rest) =>
          match PyStr.partition rest end_marker with
          | None => []
          | Some (body, rest') => body :: findall_go fuel' rest'
          end
      end
  end.

Definition findall (s : string) : list string :=
  findall_go (String.length s) s.

Definition extract_all_python_code (s : string) : option string :=
  match findall s with
  | [] => None
  | matches => Some (PyStr.join EmptyString (map PyStr.strip matches))
  end.

(** ** Data model *)

Inductive Role := system | user | assistant.

(** A chat message, the dict [{"role": ..., "content": ...}]. *)
Record Message := { role : Role; content : string }.

(** The message appended for a reply of the model. *)
Definition assistant_message (text : string) : Message :=
  {| role := assistant; content := text |}.

(** The keyword arguments of one [openai.ChatCompletion.create] call
    ([stream] is always [False]).  [messages] is the content of the list at
    the time of the call.  The temperature is only passed along; its decimal
    literal is kept as a rational. *)
Record Request := {
  req_engine : string;
  req_model : string;
  req_messages : list Message;
  req_max_tokens : Z;
  req_temperature : Q
}.

(** A path of the file system names a regular file or a directory.  For
    [read_file] and [write_file] below, the text of a file is what Python's
    text mode reads and writes, without the translation of line ends and the
    encoding; [read_text] and [write_text] further down go to the bytes.
    Parent directories and permissions are not modelled. *)
Inductive Node := File (text : string) | Directory.

(** The state the program acts on: the file system, the requests sent to
    the model service so far (oldest first), the lines printed so far, and
    the content of the list object that [def chat_gpt_wrapper] created for
    the default value of [input_messages]. *)
Record World := {
  files : gmap string Node;
  requests : list Request;
  stdout : list string;
  default_input_messages : list Message
}.

Inductive PyError :=
| TypeError
| AttributeError
| IndexError
| UnboundLocalError
| FileNotFoundError
| IsADirectoryError
| CalledProcessError
| UnicodeDecodeError
| UnicodeEncodeError.

Inductive Result (A : Type) :=
| Ok (a : A)
| Raise (e : PyError).
Arguments Ok {A} a.
Arguments Raise {A} e.

(** Computations that read and change the world and may raise; what was
    changed before an exception stays changed. *)
Definition Py (A : Type) : Type := World -> Result A * World.

Definition ret {A} (a : A) : Py A := fun w => (Ok a, w).

Definition raise {A} (e : PyError) : Py A := fun w => (Raise e, w).

Definition bind {A B} (m : Py A) (k : A -> Py B) : Py B :=
  fun w =>
    match m w with
    | (Ok a, w') => k a w'
    | (Raise e, w') => (Raise e, w')
    end.

Notation "'let*' x ':=' m 'in' k" := (bind m (fun x => k))
  (at level 10, x name, m at level 100, k at level 200).
Notation "'let*' ' p ':=' m 'in' k" := (bind m (fun x => match x with p => k end))
  (at level 10, p pattern, m at level 100, k at level 200).
Notation "'do' m 'then' k" := (bind m (fun _ => k))
  (at level 10, m at level 100, k at level 200).

Definition log_request (r : Request) (w : World) : World :=
  {| files := files w; requests := requests w ++ [r];
     stdout := stdout w; default_input_messages := default_input_messages w |}.

Definition set_files (fs : gmap string Node) (w : World) : World :=
  {| files := fs; requests := requests w;
     stdout := stdout w; default_input_messages := default_input_messages w |}.

Definition set_default_input_messages (l : list Message) (w : World) : World :=
  {| files := files w; requests := requests w;
     stdout := stdout w; default_input_messages := l |}.

Definition print_line (line : string) (w : World) : World :=
  {| files := files w; requests := requests w;
     stdout := stdout w ++ [line];
     default_input_messages := default_input_messages w |}.

(** [print(line)] *)
Definition print (line : string) : Py unit := fun w => (Ok tt, print_line line w).

(** [with open(path, "r") as file: file.read()] *)
Definition read_file (path : string) : Py string :=
  fun w =>
    match files w !! path with
    | Some (File text) => (Ok text, w)
    | Some Directory => (Raise IsADirectoryError, w)
    | None => (Raise FileNotFoundError, w)
    end.

(** [with open(path, "w") as f: f.write(text)]: opening creates or truncates
    the file; writing something that is not a [str] ([None]) then raises. *)
Definition write_file (path : string) (text : option string) : Py unit :=
  fun w =>
    match files w !! path with
    | Some Directory => (Raise IsADirectoryError, w)
    | _ =>
        match text with
        | Some t => (Ok tt, set_files (<[path := File t]> (files w)) w)
        | None => (Raise TypeError, set_files (<[path := File EmptyString]> (files w)) w)
        end
    end.

(** [os.path.exists(path)] *)
Definition path_exists (path : string) (w : World) : bool :=
  bool_decide (is_Some (files w !! path)).

(** [os.remove(path)] *)
Definition os_remove (path : string) : Py unit :=
  fun w =>
    match files w !! path with
    | Some (File _) => (Ok tt, set_files (delete path (files w)) w)
    | Some Directory => (Raise IsADirectoryError, w)
    | None => (Raise FileNotFoundError, w)
    end.

(** Default values of the keyword parameters of [chat_gpt_wrapper]. *)
Definition default_engine : string := "GPT4".
Definition default_model : string := "gpt-4".
Definition default_max_tokens : Z := 1000.
Definition default_temperature : Q := 0.2.
Definition default_reruns_if_fail : Z := 0.

(** The request built from the arguments of a call. *)
Definition request_of (engine model : string) (input_messages : list Message)
    (max_tokens : Z) (temperature : Q) : Request :=
  {| req_engine := engine; req_model := model; req_messages := input_messages;
     req_max_tokens := max_tokens; req_temperature := temperature |}.

(** The test of line 306 on a line of the diff. *)
Definition is_def_line (line : string) : bool :=
  PyStr.startswith line "+ def" || PyStr.startswith line "- def".

(** What [ast.parse(code_output)] does. *)
Inductive ParseOutcome :=
| Parsed
| SyntaxError (e : string)
| NotSource.

Section Pipeline.

(** The model service: the text of the first choice of the reply, given
    the requests answered before and the request. *)
Variable respond : list Request -> Request -> string.

(** The Python parser: [None] when the source parses, the text of the
    [SyntaxError] otherwise. *)
Variable syntax_error : string -> option string.

(** [ast.parse] hands its argument to [compile], which raises [TypeError]
    for [None] (not a string, bytes or AST object).  On a string the model
    keeps the two outcomes that [chat_gpt_wrapper] tells apart, a parse and
    a [SyntaxError]; any other exception of [compile] on a string (a
    [ValueError] for a null character in interpreters before 3.12, a
    [RecursionError] or [MemoryError] on deep nesting) is not caught at
    line 38 and is left out of [syntax_error]. *)
Definition ast_parse (source : option string) : ParseOutcome :=
  match source with
  | None => NotSource
  | Some src =>
      match syntax_error src with
      | None => Parsed
      | Some e => SyntaxError e
      end
  end.

(** The body of [chat_gpt_wrapper] on the list passed as [input_messages],
    with [reruns_if_fail] as a natural number.  Besides the result it
    yields the final content of that list, which [append] changes in place
    also when the call ends in an exception.  The recursive call passes
    [input_messages], [engine], [max_tokens], [temperature] and the
    decremented counter, and leaves [model] to its default. *)
Fixpoint chat_gpt_wrapper_rec (reruns_if_fail : nat)
    (input_messages : list Message) (engine model : string)
    (max_tokens : Z) (temperature : Q) (w : World)
    : Result (option string) * list Message * World :=
  let request :=
    {| req_engine := engine; req_model := model;
       req_messages := input_messages; req_max_tokens := max_tokens;
       req_temperature := temperature |} in
  let unit_test_completion := respond (requests w) request in
  let w := log_request request w in
  let input_messages :=
    input_messages ++ [{| role := assistant; content := unit_test_completion |}] in
  let code_output := extract_all_python_code unit_test_completion in
  match ast_parse code_output with
  | NotSource => (Raise TypeError, input_messages, w)
  | Parsed => (Ok code_output, input_messages, w)
  | SyntaxError e =>
      let w := print_line ("Syntax error in generated code: " +:+ e) w in
      match reruns_if_fail with
      | S reruns' =>
          let w := print_line "Rerunning..." w in
          chat_gpt_wrapper_rec reruns' input_messages engine default_model
            max_tokens temperature w
      | 0 => (Ok code_output, input_messages, w)
      end
  end.

(** [chat_gpt_wrapper].  [input_messages = None] is a call that omits the
    argument: the function then works on the default list object, whose
    content lives in the world and keeps every [append]. *)
Definition chat_gpt_wrapper (input_messages : option (list Message))
    (engine model : string) (max_tokens : Z) (temperature : Q)
    (reruns_if_fail : Z) : Py (option string * list Message) :=
  fun w =>
    let l := match input_messages with
             | Some l => l
             | None => default_input_messages w
             end in
    match chat_gpt_wrapper_rec (Z.to_nat reruns_if_fail) l engine model
            max_tokens temperature w with
    | (r, l', w') =>
        let w'' := match input_messages with
                   | Some _ => w'
                   | None => set_default_input_messages l' w'
                   end in
        (match r with
         | Ok code_output => Ok (code_output, l')
         | Raise e => Raise e
         end, w'')
    end.

End Pipeline.

(** ** The code catalog (the result of [import_all_modules]) *)

(** A function or method object, through the two things the program asks of
    it: [str(obj)] and [inspect.getsource(obj)]. *)
Record Callable := { str_of : string; getsource : string }.

(** A value of the ["objects"] dict of a file: the dict of the methods of a
    class, or a plain function. *)
Inductive ObjValue :=
| Methods (d : list (string * Callable))
| Function (f : Callable).

(** The entry of one file: [None] when it has no ["objects"] key. *)
Definition FileEntry : Type := option (list (string * ObjValue)).

(** The local variables of [generate_unit_test] that live across iterations.
    [class_name] is [None] as long as no assignment has bound it. *)
Record Locals := {
  messages : list Message;
  doc_messages : list Message;
  class_name : option string;
  generated_unit_test : string
}.

Definition nl : string := String "010"%char EmptyString.
Definition dq : string := String "034"%char EmptyString.

(** [l[i]] *)
Definition index {A} (l : list A) (i : nat) : Py A :=
  match l !! i with
  | Some x => ret x
  | None => raise IndexError
  end.

(** [l[-n:]] for a positive [n]. *)
Definition last_n {A} (n : nat) (l : list A) : list A :=
  drop (length l - n) l.

(** How an f-string shows a value that is a string or [None]. *)
Definition format_value (v : option string) : string :=
  match v with
  | Some s => s
  | None => "None"
  end.

(** A [for] loop whose body updates a state and may raise. *)
Fixpoint for_each {A S} (body : A -> S -> Py S) (l : list A) (s : S) : Py S :=
  match l with
  | [] => ret s
  | x :: l' => let* s' := body x s in for_each body l' s'
  end.

(** The path of the test file of one function, the f-string of lines 214
    and 235. *)
Definition test_path_of (class_name function_name : string) : string :=
  "test_code/unit_test/test_" +:+ class_name +:+ "_" +:+ function_name +:+ ".py".

Definition spaces (n : nat) : string := String.concat EmptyString (replicate n " ").

Section Generation.

Variable respond : list Request -> Request -> string.
Variable syntax_error : string -> option string.

(** The catalog builder of [get_functions]: the [object_dict] of a
    directory in insertion order and [str(directory_dict)]. *)
Variable import_all_modules : string -> list (string * FileEntry) * string.

(** The output of [git diff @{upstream}..HEAD file_path], decoded; [None]
    when the command fails. *)
Variable git_diff : string -> option string.

Local Abbreviation chat := (chat_gpt_wrapper respond syntax_error).

Definition doc_prompt (doc_package : string) : string :=
  "you are providing documentation and typing (type hints) of code to be used in "
  +:+ doc_package +:+
  ", as an example for the function
    ```python
    def read_s3_file(self, file_path):
        file_res = urlparse(file_path)
        try:
            file_obj = s3_resource.Object(file_res.netloc, file_res.path.lstrip(" +:+ dq +:+ "/" +:+ dq +:+ "))
            return file_obj.get()[" +:+ dq +:+ "Body" +:+ dq +:+ "].read()
        except ClientError:
            raise FileNotFoundError(f" +:+ dq +:+ "File cannot be found in S3 given path file_path" +:+ dq +:+ "):
    ```
    this is a proper response:
    ```python
    def read_s3_file(self, file_path:str)->str:
    " +:+ dq +:+ dq +:+ dq +:+ "
    Reads the contents of a file from an S3 bucket.
    :param file_path: The S3 URI of the file to read, e.g. " +:+ dq +:+ "s3://my-bucket/my-file.txt" +:+ dq +:+ ".
    :type file_path: str
    :return: The contents of the file as a byte string.
    :rtype: bytes
    :raises FileNotFoundError: If the file cannot be found in the specified S3 bucket.
    :Example:
    (some examples)
    " +:+ dq +:+ dq +:+ dq +:+ "
    file_res = urlparse(file_path)
    try:
        file_obj = s3_resource.Object(file_res.netloc, file_res.path.lstrip(" +:+ dq +:+ "/" +:+ dq +:+ "))
        return file_obj.get()[" +:+ dq +:+ "Body" +:+ dq +:+ "].read()
    except ClientError:
        raise FileNotFoundError(f" +:+ dq +:+ "File cannot be found in S3 given path file_path" +:+ dq +:+ ")
    ```
    ".

Definition full_prompt (unit_test_package platform repo_explanation
    directory_dict : string) : string :=
  "you are providing unit test using " +:+ unit_test_package +:+ "` and "
  +:+ platform +:+ spaces 8 +:+ repo_explanation
  +:+ ". to give details about the structure of the repo look at the dictionary below, it includes all files"
  +:+ spaces 8
  +:+ "and if python, all function and classes, if json first and second level keys and if csv, the column names :"
  +:+ directory_dict +:+ ",".

(** Lines 189-200: read the file, shape the generated text, replace the
    source of the function by it, write the file back. *)
Definition splice_documentation (file_path function_to_test : string)
    (doc_code : option string) : Py string :=
  let* file_content := read_file file_path in
  let* doc_code :=
    match doc_code with
    | None => raise AttributeError
    | Some d =>
        ret (if PyStr.startswith d "class"
             then PyStr.join nl (drop 1 (PyStr.split d "010"%char))
             else "    " +:+ PyStr.replace d nl (nl +:+ "    ") None)
    end in
  let new_content := PyStr.replace file_content function_to_test doc_code None in
  do write_file file_path (Some new_content) then
  ret doc_code.

(** The body of the loop over the methods of a class (lines 176-216). *)
Definition process_class_method (file_path doc_package : string)
    (class_method : Callable) (L : Locals) : Py Locals :=
  let* before_dot := index (PyStr.split (str_of class_method) ".") 0 in
  let* class_name := index (PyStr.split before_dot " ") 1 in
  let* after_dot := index (PyStr.split (str_of class_method) ".") 1 in
  let* function_name := index (PyStr.split after_dot " ") 0 in
  let function_to_test := getsource class_method in
  let doc_messages :=
    doc_messages L ++
    [{| role := user;
        content := "provide documentation for " +:+ function_to_test
                   +:+ " in class " +:+ class_name
                   +:+ " that can be used in " +:+ doc_package |}] in
  let* '(doc_code, doc_messages) :=
    chat (Some doc_messages) default_engine default_model
      default_max_tokens default_temperature default_reruns_if_fail in
  let doc_messages :=
    if 4 <? length doc_messages
    then take 1 doc_messages ++ last_n 4 doc_messages
    else doc_messages in
  let* doc_code := splice_documentation file_path function_to_test doc_code in
  let request_for_unit_test :=
    " provide unit test for the function `" +:+ function_name +:+ " in "
    +:+ class_name +:+ "`." +:+ spaces 32 +:+ "```python" +:+ spaces 32
    +:+ function_to_test +:+ " " +:+ spaces 32 +:+ "```" +:+ spaces 32
    +:+ "and the path of the function is " +:+ file_path +:+ spaces 32 in
  let messages :=
    messages L ++ [{| role := user; content := request_for_unit_test |}] in
  let* '(unit_test_code, messages) :=
    chat (Some messages) default_engine default_model
      default_max_tokens default_temperature default_reruns_if_fail in
  let doc_code :=
    if 4 <? length doc_messages
    then PyStr.take 1 doc_code +:+ PyStr.last_n 4 doc_code
    else doc_code in
  let generated_unit_test :=
    generated_unit_test L +:+ function_name +:+ " in class " +:+ class_name
    +:+ "`" +:+ nl +:+ format_value unit_test_code in
  let current_test_path := test_path_of class_name function_name in
  do write_file current_test_path unit_test_code then
  ret {| messages := messages; doc_messages := doc_messages;
         class_name := Some class_name;
         generated_unit_test := generated_unit_test |}.

(** The branch of a plain function (lines 218-237).  [class_name] is read,
    never assigned. *)
Definition process_function (file_path : string) (engine model : string)
    (max_tokens : Z) (temperature : Q) (obj_key : string)
    (obj_value : Callable) (L : Locals) : Py Locals :=
  let function_name := obj_key in
  let function_to_test := getsource obj_value in
  let prompt_to_explain_the_function :=
    " provide unit test for the function `" +:+ function_name +:+ "`."
    +:+ spaces 28 +:+ "```python" +:+ spaces 28
    +:+ function_to_test +:+ " " +:+ spaces 28 +:+ "```" +:+ spaces 28
    +:+ "and the path of the function is " +:+ file_path +:+ spaces 28 in
  let messages :=
    messages L ++
    [{| role := user; content := prompt_to_explain_the_function |}] in
  let* '(unit_test_code, messages) :=
    chat (Some messages) engine model max_tokens temperature
      default_reruns_if_fail in
  let generated_unit_test :=
    generated_unit_test L +:+ function_name +:+ "`" +:+ nl
    +:+ format_value unit_test_code in
  let* bound_class_name :=
    match class_name L with
    | Some c => ret c
    | None => raise UnboundLocalError
    end in
  let current_test_path := test_path_of bound_class_name function_name in
  do write_file current_test_path unit_test_code then
  ret {| messages := messages; doc_messages := doc_messages L;
         class_name := class_name L;
         generated_unit_test := generated_unit_test |}.

(** One item of [objects["objects"]]: an empty dict is falsy and skipped. *)
Definition process_object (file_path doc_package engine model : string)
    (max_tokens : Z) (temperature : Q) (item : string * ObjValue)
    (L : Locals) : Py Locals :=
  match item with
  | (obj_key, Methods []) => ret L
  | (obj_key, Methods d) =>
      for_each (fun kv => process_class_method file_path doc_package (snd kv)) d L
  | (obj_key, Function f) =>
      process_function file_path engine model max_tokens temperature obj_key f L
  end.

(** One item of [object_dict] (lines 170-240). *)
Definition process_file (doc_package engine model : string)
    (max_tokens : Z) (temperature : Q) (item : string * FileEntry)
    (L : Locals) : Py Locals :=
  let file_path := fst item in
  let L := {| messages := messages L; doc_messages := doc_messages L;
              class_name := class_name L;
              generated_unit_test := EmptyString |} in
  match snd item with
  | None => ret L
  | Some objects =>
      let* L := for_each (process_object file_path doc_package engine model
                            max_tokens temperature) objects L in
      do write_file (unit_test_path file_path) (Some (generated_unit_test L)) then
      ret L
  end.

(** [generate_unit_test], returning the local variables at its end so
    that they can be observed (the Python function returns [None]). *)
Definition generate_unit_test_locals (directory repo_explanation
    unit_test_package doc_package platform engine model : string)
    (max_tokens : Z) (temperature : Q) : Py Locals :=
  let '(object_dict, directory_dict) := import_all_modules directory in
  let messages :=
    [{| role := system;
        content := full_prompt unit_test_package platform repo_explanation
                     directory_dict |}] in
  let doc_messages := [{| role := system; content := doc_prompt doc_package |}] in
  for_each (process_file doc_package engine model max_tokens temperature)
    object_dict
    {| messages := messages; doc_messages := doc_messages;
       class_name := None; generated_unit_test := EmptyString |}.

Definition generate_unit_test (directory repo_explanation
    unit_test_package doc_package platform engine model : string)
    (max_tokens : Z) (temperature : Q) : Py unit :=
  do generate_unit_test_locals directory repo_explanation unit_test_package
       doc_package platform engine model max_tokens temperature then
  ret tt.

(** The body of the loop of the [__main__] block over the items of
    [modified_code_files] (lines 285-307).  [file_extension] is computed
    and never used. *)
Definition dispatch_entry (item : string * string) (_ : unit) : Py unit :=
  let '(file_path, status) := item in
  let unit_test_path := unit_test_path file_path in
  if String.eqb status "D" then
    fun w =>
      if path_exists unit_test_path w then os_remove unit_test_path w
      else (Ok tt, w)
  else
    match git_diff file_path with
    | None => raise CalledProcessError
    | Some git_diff_output =>
        let git_diff_lines := PyStr.split git_diff_output "010"%char in
        for_each
          (fun line (_ : unit) =>
             if PyStr.startswith line "+ def" || PyStr.startswith line "- def"
             then print line else ret tt)
          git_diff_lines tt
    end.

(** Lines 283-307. *)
Definition dispatch (modified_code_files : list (string * string)) : Py unit :=
  for_each dispatch_entry modified_code_files tt.

End Generation.

(** ** Concrete collaborators and inputs used in the examples *)

Module Stubs.

Definition valid_reply : string :=
  "Here you go: ```python" +:+ nl +:+ "def test_it():" +:+ nl
  +:+ "    assert True" +:+ nl +:+ "```".

Definition invalid_reply : string :=
  "```python" +:+ nl +:+ "def test_it(:" +:+ nl +:+ "```".

Definition no_code_reply : string := "I cannot write tests for this.".

Definition respond_valid (_ : list Request) (_ : Request) : string := valid_reply.
Definition respond_invalid (_ : list Request) (_ : Request) : string := invalid_reply.
Definition respond_no_code (_ : list Request) (_ : Request) : string := no_code_reply.

(** A parser that accepts everything, and one that rejects everything. *)
Definition syntax_ok (_ : string) : option string := None.
Definition syntax_bad (_ : string) : option string :=
  Some "invalid syntax (<unknown>, line 1)".

Definition method (cls name : string) : Callable :=
  {| str_of := "<function " +:+ cls +:+ "." +:+ name +:+ " at 0x7f3a>";
     getsource := "    def " +:+ name +:+ "(self):" +:+ nl
                  +:+ "        return 1" +:+ nl |}.

Definition plain_function (name : string) : Callable :=
  {| str_of := "<function " +:+ name +:+ " at 0x7f3b>";
     getsource := "def " +:+ name +:+ "():" +:+ nl +:+ "    return 1" +:+ nl |}.

(** One file with a class of three methods. *)
Definition catalog_class (_ : string) : list (string * FileEntry) * string :=
  ([("pkg/mod.py",
     Some [("DataCheck",
            Methods [("a", method "DataCheck" "a");
                     ("b", method "DataCheck" "b");
                     ("c", method "DataCheck" "c")])])],
   "{}").

(** One file whose first object is a plain function. *)
Definition catalog_function (_ : string) : list (string * FileEntry) * string :=
  ([("pkg/util.py", Some [("helper", Function (plain_function "helper"))])],
   "{}").

Definition git_diff_stub (_ : string) : option string :=
  Some ("diff --git a/a/b/module.py b/a/b/module.py" +:+ nl
        +:+ "+ def added():" +:+ nl +:+ "+     return 1" +:+ nl
        +:+ "- def removed():").

Definition w0 : World :=
  {| files := {[ "pkg/mod.py" := File "class DataCheck: pass" ]};
     requests := []; stdout := []; default_input_messages := [] |}.

(** A world in which the artifact path of ["a/b/module.py"] exists. *)
Definition w_artifact : World :=
  {| files := {[ unit_test_path "a/b/module.py" := File "def test_it(): pass" ]};
     requests := []; stdout := []; default_input_messages := [] |}.

End Stubs.

(** ** [os.path.splitext] *)

Module OsPath.

(** [s.rfind(c)] for a one-character [c]: the index of the last occurrence,
    [-1] when there is none. *)
Fixpoint rfind (s : string) (c : ascii) : Z :=
  match s with
  | EmptyString => -1
  | String a s' =>
      let later := rfind s' c in
      if (0 <=? later)%Z then (later + 1)%Z
      else if Ascii.eqb a c then 0%Z else (-1)%Z
  end.

(** The loop of [genericpath._splitext] that skips the leading dots of the
    file name: whether one of the [steps] characters from [filenameIndex] on
    is not a dot ([p[i:i+1]] is empty, hence not a dot, past the end). *)
Fixpoint has_non_dot (p : string) (filenameIndex steps : nat) : bool :=
  match steps with
  | 0 => false
  | S steps' =>
      match String.get filenameIndex p with
      | Some c =>
          if Ascii.eqb c "." then has_non_dot p (S filenameIndex) steps'
          else true
      | None => true
      end
  end.

(** [genericpath._splitext(p, sep, altsep, ".")] *)
Definition _splitext (p : string) (sep : ascii) (altsep : option ascii)
    : string * string :=
  let sepIndex :=
    match altsep with
    | Some a => Z.max (rfind p sep) (rfind p a)
    | None => rfind p sep
    end in
  let dotIndex := rfind p "." in
  if (sepIndex <? dotIndex)%Z
     && has_non_dot p (Z.to_nat (sepIndex + 1))
          (Z.to_nat (dotIndex - (sepIndex + 1)))
  then (PyStr.take (Z.to_nat dotIndex) p, PyStr.drop (Z.to_nat dotIndex) p)
  else (p, EmptyString).

(** The two implementations of [os.path]. *)
Inductive Flavour := Posix | Nt.

(** [os.path.splitext(p)]: [posixpath] has the separator ["/"] and no
    alternative one, [ntpath] the backslash and ["/"]. *)
Definition splitext (os : Flavour) (p : string) : string * string :=
  match os with
  | Posix => _splitext p "/" None
  | Nt => _splitext p "092" (Some "/"%char)
  end.

End OsPath.

(** ** [get_modified_code_files] and the [__main__] block *)

Definition tab : ascii := "009".

Definition allowed_extensions : list string :=
  [".py"; ".cpp"; ".java"; ".js"; ".scala"; ".sas"; ".json"; ".csv"].

(** [x in l] for a list of strings. *)
Definition in_list (x : string) (l : list string) : bool :=
  existsb (String.eqb x) l.

(** [k in d] and [d[k] = v] on a dict kept as its items in insertion order:
    a key that is present keeps its place and gets the new value, a new key
    goes to the end. *)
Definition dict_has (d : list (string * string)) (k : string) : bool :=
  existsb (fun kv => String.eqb (fst kv) k) d.

Definition dict_set (d : list (string * string)) (k v : string)
    : list (string * string) :=
  if dict_has d k
  then map (fun kv => if String.eqb (fst kv) k then (k, v) else kv) d
  else d ++ [(k, v)].

(** [d.get(k)] *)
Fixpoint dict_get (d : list (string * string)) (k : string) : option string :=
  match d with
  | [] => None
  | (k', v) :: d' => if String.eqb k' k then Some v else dict_get d' k
  end.

Section Changes.

Variable os : OsPath.Flavour.

(** The output of [git diff --name-status @{upstream}..HEAD], decoded;
    [None] when the command fails. *)
Variable git_name_status : option string.

(** The output of [git diff @{upstream}..HEAD file_path], as before. *)
Variable git_diff : string -> option string.

(** [str(d)] for the dict of changes, printed at line 281. *)
Variable dict_str : list (string * string) -> string.

(** The filter of line 74. *)
Definition is_code_file (f : string) : bool :=
  in_list (snd (OsPath.splitext os f)) allowed_extensions.

(** The body of the loop of lines 78-85: unpacking [file.split("\t")] into
    two names raises [ValueError], which is caught, unless there are exactly
    two parts. *)
Definition record_change (file : string) (changes : list (string * string))
    : Py (list (string * string)) :=
  do print file then
  match PyStr.split file tab with
  | [status; filename] =>
      do print ("Status: " +:+ status +:+ ", Filename: " +:+ filename) then
      ret (dict_set changes filename status)
  | _ =>
      do print ("Skipping invalid line: " +:+ file
                +:+ ". Most likely it is due to renaming the file.") then
      ret changes
  end.

(** [get_modified_code_files], as called from the [__main__] block, where
    [os] is bound. *)
Definition get_modified_code_files : Py (list (string * string)) :=
  match git_name_status with
  | None => raise CalledProcessError
  | Some output =>
      let code_files :=
        List.filter is_code_file (PyStr.split output "010"%char) in
      for_each record_change code_files []
  end.

(** The [__main__] block from line 279 on (the lines before it configure the
    [openai] module). *)
Definition main : Py unit :=
  let* modified_code_files := get_modified_code_files in
  do print (dict_str modified_code_files) then
  if negb (length modified_code_files =? 0)
  then dispatch git_diff modified_code_files
  else ret tt.

End Changes.

(** What one line adds to the dict of changes, and the dict built from the
    lines kept by the filter: the loop of lines 78-85 without its printing. *)
Definition add_change (changes : list (string * string)) (file : string)
    : list (string * string) :=
  match PyStr.split file tab with
  | [status; filename] => dict_set changes filename status
  | _ => changes
  end.

Definition changes_of (code_files : list string) : list (string * string) :=
  fold_left add_change code_files [].

(** ** Texts with fenced blocks *)

(** A piece of prose followed by a block fenced with the two markers. *)
Definition fenced (prose body : string) : string :=
  prose +:+ start_marker +:+ body +:+ end_marker.

(** A reply made of such pieces, given as (prose, body) pairs, and a tail. *)
Definition reply_of (blocks : list (string * string)) (tail : string) : string :=
  fold_right (fun pb rest => fenced (fst pb) (snd pb) +:+ rest) tail blocks.

Definition no_backtick (s : string) : Prop :=
  PyStr.contains s "`" = false.

(** ** Text files down to their bytes *)

Module TextIO.

Definition cr : ascii := "013".
Definition lf : ascii := "010".

(** What reading in text mode with the default [newline=None] does to the
    line ends: ["\r\n"] and a lone ["\r"] are read as ["\n"]. *)
Fixpoint universal_newlines (s : string) : string :=
  match s with
  | EmptyString => EmptyString
  | String c s' =>
      if Ascii.eqb c cr then
        String lf
          match s' with
          | EmptyString => EmptyString
          | String d s'' =>
              if Ascii.eqb d lf then universal_newlines s''
              else universal_newlines s'
          end
      else String c (universal_newlines s')
  end.

(** [os.linesep] *)
Definition linesep (os : OsPath.Flavour) : string :=
  match os with
  | OsPath.Posix => String lf EmptyString
  | OsPath.Nt => String cr (String lf EmptyString)
  end.

(** What writing in text mode with the default [newline=None] does: every
    ["\n"] is written as [os.linesep] (nothing to do where that is ["\n"]). *)
Definition platform_newlines (os : OsPath.Flavour) (s : string) : string :=
  match os with
  | OsPath.Posix => s
  | OsPath.Nt => PyStr.replace s (String lf EmptyString) (linesep OsPath.Nt) None
  end.

(** The encoding of a text file, with the default [errors="strict"]: [None]
    stands for [UnicodeDecodeError] and for [UnicodeEncodeError]. *)
Record Codec := {
  decode_bytes : string -> option string;
  encode_text : string -> option string
}.

(** An encoding with one byte for every character, such as Latin-1. *)
Definition latin1 : Codec := {| decode_bytes := Some; encode_text := Some |}.

End TextIO.

Section OnDisk.

Variable os : OsPath.Flavour.
Variable codec : TextIO.Codec.

(** [with open(path, "r") as file: file.read()] on a world whose files hold
    bytes: the bytes are decoded and the line ends translated. *)
Definition read_text (path : string) : Py string :=
  fun w =>
    match files w !! path with
    | Some (File bytes) =>
        match TextIO.decode_bytes codec bytes with
        | Some decoded => (Ok (TextIO.universal_newlines decoded), w)
        | None => (Raise UnicodeDecodeError, w)
        end
    | Some Directory => (Raise IsADirectoryError, w)
    | None => (Raise FileNotFoundError, w)
    end.

(** [with open(path, "w") as file: file.write(text)] on such a world: opening
    truncates the file, then the text is written with its line ends
    translated and encoded. *)
Definition write_text (path text : string) : Py unit :=
  fun w =>
    match files w !! path with
    | Some Directory => (Raise IsADirectoryError, w)
    | _ =>
        match TextIO.encode_text codec (TextIO.platform_newlines os text) with
        | Some bytes => (Ok tt, set_files (<[path := File bytes]> (files w)) w)
        | None =>
            (Raise UnicodeEncodeError,
             set_files (<[path := File EmptyString]> (files w)) w)
        end
    end.

(** Lines 189-200 on such a world. *)
Definition splice_documentation_on_disk (file_path function_to_test : string)
    (doc_code : option string) : Py string :=
  let* file_content := read_text file_path in
  let* doc_code :=
    match doc_code with
    | None => raise AttributeError
    | Some d =>
        ret (if PyStr.startswith d "class"
             then PyStr.join nl (drop 1 (PyStr.split d "010"%char))
             else "    " +:+ PyStr.replace d nl (nl +:+ "    ") None)
    end in
  let new_content := PyStr.replace file_content function_to_test doc_code None in
  do write_text file_path new_content then
  ret doc_code.

End OnDisk.

(** ** Catalog entries without code objects *)

(** An item of [objects["objects"]] that the loop skips: a class without
    methods, whose dict is empty and so falsy. *)
Definition is_empty_class (item : string * ObjValue) : Prop :=
  snd item = Methods [].

(** A file entry for which the loops process no code object: it has no
    ["objects"] key, or only classes without methods. *)
Definition processes_nothing (item : string * FileEntry) : Prop :=
  match snd item with
  | None => True
  | Some objects => Forall is_empty_class objects
  end.

(** ** Further inputs used in the examples *)

Module Examples.

Definition name_status_output : string :=
  "M" +:+ String tab "src/main.py" +:+ nl
  +:+ "R100" +:+ String tab "old.py" +:+ String tab "new.py" +:+ nl
  +:+ "A" +:+ String tab "docs/readme.md" +:+ nl
  +:+ "D" +:+ String tab "data/rules.csv" +:+ nl
  +:+ "A" +:+ String tab "src/main.py" +:+ nl.

Definition dict_str_stub (d : list (string * string)) : string :=
  "{" +:+ String.concat ", " (map (fun kv => fst kv +:+ ": " +:+ snd kv) d) +:+ "}".

Definition system_only : list Message :=
  [{| role := system; content := "you are providing unit test" |}].

Definition locals0 : Locals :=
  {| messages := system_only; doc_messages := system_only;
     class_name := None; generated_unit_test := EmptyString |}.

Definition three_blocks : list (string * string) :=
  [("First: ", nl +:+ "x = 1" +:+ nl);
   (" then ", " y = 2 ");
   (nl, "z = 3")].

(** A source file with the two methods of [Stubs.method] in it. *)
Definition source_text : string :=
  "class DataCheck:" +:+ nl +:+ getsource (Stubs.method "DataCheck" "a")
  +:+ getsource (Stubs.method "DataCheck" "b").

Definition w_source : World :=
  {| files := {[ "pkg/mod.py" := File source_text ]};
     requests := []; stdout := []; default_input_messages := [] |}.

Definition locals_bound : Locals :=
  {| messages := system_only; doc_messages := system_only;
     class_name := Some "DataCheck"; generated_unit_test := EmptyString |}.

Definition builtin : Callable :=
  {| str_of := "<built-in function len>"; getsource := EmptyString |}.

(** A catalog of data files only. *)
Definition catalog_data_only (_ : string) : list (string * FileEntry) * string :=
  ([("data/rules.csv", None); ("config.json", None)], "{}").

(** A world whose only file has ["\r\n"] line ends. *)
Definition crlf_bytes : string :=
  "x = 1" +:+ String TextIO.cr nl +:+ "y = 2" +:+ String TextIO.cr nl.

Definition w_crlf : World :=
  {| files := {[ "pkg/mod.py" := File crlf_bytes ]};
     requests := []; stdout := []; default_input_messages := [] |}.

(** A catalog in which a data file and a file with an empty class come
    before the file whose first object is a plain function. *)
Definition catalog_function_later (_ : string)
    : list (string * FileEntry) * string :=
  ([("data/rules.csv", None);
    ("pkg/empty.py", Some [("Empty", Methods [])]);
    ("pkg/util.py",
     Some [("Nothing", Methods []);
           ("helper", Function (Stubs.plain_function "helper"))])],
   "{}").

End Examples.

(** * Properties *)

(** ** Facts about the string primitives *)

Module PyStrFacts.
Import PyStr.

Lemma app_nil_l (s : string) : EmptyString +:+ s = s.
Proof. reflexivity. Qed.

Lemma app_cons (c : ascii) (s t : string) :
  String c s +:+ t = String c (s +:+ t).
Proof. reflexivity. Qed.

Lemma app_nil_r (s : string) : s +:+ EmptyString = s.
Proof.
  induction s as [|c s IH]; [reflexivity |].
  now rewrite app_cons, IH.
Qed.

Lemma app_assoc (a b c : string) : (a +:+ b) +:+ c = a +:+ b +:+ c.
Proof.
  induction a as [|x a IH]; [reflexivity |].
  now rewrite !app_cons, IH.
Qed.

Lemma length_app (a b : string) :
  String.length (a +:+ b) = String.length a + String.length b.
Proof.
  induction a as [|x a IH]; [reflexivity |].
  rewrite app_cons. simpl. now rewrite IH.
Qed.

Lemma rev_app_spec (s acc : string) :
  String.rev_app s acc = String.rev s +:+ acc.
Proof.
  unfold String.rev. revert acc.
  induction s as [|c s IH]; intros acc; simpl; [reflexivity |].
  rewrite (IH (String c EmptyString)), (IH (String c acc)).
  now rewrite app_assoc.
Qed.

Lemma rev_cons (c : ascii) (s : string) :
  String.rev (String c s) = String.rev s +:+ String c EmptyString.
Proof. unfold String.rev at 1. simpl. apply rev_app_spec. Qed.

Lemma rev_app_distr (a b : string) :
  String.rev (a +:+ b) = String.rev b +:+ String.rev a.
Proof.
  induction a as [|c a IH].
  - change (String.rev b = String.rev b +:+ EmptyString).
    now rewrite app_nil_r.
  - change (String.rev (String c (a +:+ b))
            = String.rev b +:+ String.rev (String c a)).
    now rewrite !rev_cons, IH, app_assoc.
Qed.

Lemma rev_involutive (s : string) : String.rev (String.rev s) = s.
Proof.
  induction s as [|c s IH]; [reflexivity |].
  now rewrite rev_cons, rev_app_distr, IH.
Qed.

Lemma startswith_spec (s p : string) :
  startswith s p = true <-> exists post, s = p +:+ post.
Proof.
  revert s. induction p as [|a p IH]; intros s; simpl.
  - split; [intros _; now exists s | reflexivity].
  - destruct s as [|b s].
    + split; [discriminate | intros [post H]; discriminate].
    + destruct (Ascii.eqb_spec a b) as [->|Hne].
      * rewrite IH. split; intros [post H]; exists post.
        -- now rewrite app_cons, H.
        -- rewrite app_cons in H. congruence.
      * split; [discriminate | intros [post H]].
        rewrite app_cons in H. congruence.
Qed.

(** [contains] is the substring relation. *)
Lemma contains_spec (s sub : string) :
  contains s sub = true <-> exists pre post, s = pre +:+ sub +:+ post.
Proof.
  induction s as [|c s IH]; simpl.
  - rewrite orb_false_r, startswith_spec. split.
    + intros [post H]. now exists EmptyString, post.
    + intros [pre [post H]]. destruct pre; [now exists post | discriminate].
  - rewrite orb_true_iff, IH, startswith_spec. split.
    + intros [[post H] | [pre [post H]]].
      * now exists EmptyString, post.
      * exists (String c pre), post. now rewrite app_cons, H.
    + intros [pre [post H]]. destruct pre as [|c' pre].
      * left. now exists post.
      * right. exists pre, post. rewrite app_cons in H. congruence.
Qed.

Lemma contains_empty (s : string) : contains s EmptyString = true.
Proof. destruct s; reflexivity. Qed.

Lemma replace_go_absent (old new : string) (count : option nat) (s : string) :
  contains s old = false -> replace_go old new 0 count s = s.
Proof.
  induction s as [|c s IH]; intros H; [reflexivity |].
  cbn [contains] in H. apply orb_false_iff in H as [Hhere Hlater].
  cbn [replace_go]. rewrite Hhere, andb_false_r.
  now rewrite (IH Hlater).
Qed.

(** Replacing a text that does not occur changes nothing. *)
Lemma replace_absent (s old new : string) (count : option nat) :
  contains s old = false -> replace s old new count = s.
Proof.
  intros H. destruct old as [|a old].
  - now rewrite contains_empty in H.
  - now apply replace_go_absent.
Qed.

Lemma contains_rev (s sub : string) :
  contains (String.rev s) (String.rev sub) = contains s sub.
Proof.
  apply eq_true_iff_eq. rewrite !contains_spec. split.
  - intros [pre [post H]]. exists (String.rev post), (String.rev pre).
    rewrite <- (rev_involutive s), H, !rev_app_distr.
    now rewrite rev_involutive, app_assoc.
  - intros [pre [post H]]. exists (String.rev post), (String.rev pre).
    now rewrite H, !rev_app_distr, app_assoc.
Qed.

Lemma replace_go_exhausted (old new : string) (s : string) :
  replace_go old new 0 (Some 0) s = s.
Proof.
  induction s as [|c s IH]; [reflexivity |].
  cbn [replace_go may_replace andb]. now rewrite IH.
Qed.

(** With [count = 1] and a one-character [old], only the first occurrence is
    replaced. *)
Lemma replace_first_char (a : ascii) (new x y : string) :
  contains x (String a EmptyString) = false ->
  replace (x +:+ String a y) (String a EmptyString) new (Some 1)
  = x +:+ new +:+ y.
Proof.
  unfold replace. induction x as [|c x IH]; intros Hx.
  - rewrite !app_nil_l. cbn [replace_go may_replace startswith andb].
    rewrite Ascii.eqb_refl. cbn [String.length Nat.sub dec_count option_map Nat.pred].
    now rewrite replace_go_exhausted.
  - cbn [contains] in Hx. apply orb_false_iff in Hx as [Hhere Hlater].
    rewrite !app_cons. cbn [replace_go may_replace andb].
    cbn [startswith] in Hhere |- *.
    destruct (Ascii.eqb a c); [discriminate |].
    now rewrite (IH Hlater).
Qed.

End PyStrFacts.

(** A path without a backslash is its own artifact path. *)
Lemma unit_test_path_no_backslash (file_path : string) :
  PyStr.contains file_path backslash = false ->
  unit_test_path file_path = file_path.
Proof.
  intros H. unfold unit_test_path, PyStr.reversed.
  rewrite PyStrFacts.replace_absent.
  - apply PyStrFacts.rev_involutive.
  - rewrite <- H. exact (PyStrFacts.contains_rev file_path backslash).
Qed.

(** A path with a backslash gets ["_tset/"] in place of its last backslash. *)
Lemma unit_test_path_last_backslash (directory name : string) :
  PyStr.contains name backslash = false ->
  unit_test_path (directory +:+ backslash +:+ name)
  = directory +:+ "_tset/" +:+ name.
Proof.
  intros Hname. unfold unit_test_path, PyStr.reversed.
  rewrite !PyStrFacts.rev_app_distr, PyStrFacts.app_assoc.
  change (String.rev backslash +:+ String.rev directory)
    with (String "092"%char (String.rev directory)).
  rewrite PyStrFacts.replace_first_char.
  - rewrite !PyStrFacts.rev_app_distr, !PyStrFacts.rev_involutive.
    now rewrite PyStrFacts.app_assoc.
  - etransitivity; [exact (PyStrFacts.contains_rev name backslash) | exact Hname].
Qed.

(** C1 (the code departs from the claim): the artifact path of
    ["a/b/module.py"] is ["a/b/module.py"] itself, not
    ["a/b/test_module.py"]; a bare file name is unchanged as well; and a path
    written with backslashes gets the reversed text ["_tset/"] in place of
    its last backslash. *)
Theorem unit_test_path_examples :
  unit_test_path "a/b/module.py" = "a/b/module.py" /\
  unit_test_path "module.py" = "module.py" /\
  unit_test_path ("a" +:+ backslash +:+ "b" +:+ backslash +:+ "module.py")
  = "a" +:+ backslash +:+ "b_tset/module.py".
Proof. repeat split; vm_compute; reflexivity. Qed.

(** ** The world after file operations *)

Lemma set_files_same (w : World) : set_files (files w) w = w.
Proof. now destruct w. Qed.

Lemma write_file_same (path text : string) (w : World) :
  files w !! path = Some (File text) ->
  write_file path (Some text) w = (Ok tt, w).
Proof.
  intros H. unfold write_file. rewrite H.
  now rewrite (insert_id _ _ _ H), set_files_same.
Qed.

(** On texts: when the source text of the function does not occur in the
    text of the file, the splice writes back the text it read. *)
Lemma splice_absent_is_noop
    (file_path function_to_test doc_code content : string) (w : World) :
  files w !! file_path = Some (File content) ->
  (~ exists pre post, content = pre +:+ function_to_test +:+ post) ->
  exists shaped,
    splice_documentation file_path function_to_test (Some doc_code) w
    = (Ok shaped, w).
Proof.
  intros Hfile Habsent.
  assert (Hc : PyStr.contains content function_to_test = false).
  { destruct (PyStr.contains content function_to_test) eqn:E; [|reflexivity].
    apply PyStrFacts.contains_spec in E. contradiction. }
  unfold splice_documentation, bind, read_file, ret. rewrite Hfile.
  rewrite (PyStrFacts.replace_absent _ _ _ _ Hc).
  rewrite (write_file_same _ _ _ Hfile). eauto.
Qed.

(** ** The dispatcher *)

Lemma report_lines_spec (lines : list string) (w : World) :
  exists w',
    for_each
      (fun line (_ : unit) => if is_def_line line then print line else ret tt)
      lines tt w = (Ok tt, w') /\
    files w' = files w /\ requests w' = requests w /\
    default_input_messages w' = default_input_messages w /\
    stdout w' = stdout w ++ List.filter is_def_line lines.
Proof.
  revert w. induction lines as [|line lines IH]; intros w.
  - exists w. cbn. now rewrite app_nil_r.
  - cbn [for_each List.filter]. unfold bind at 1.
    destruct (is_def_line line).
    + destruct (IH (print_line line w)) as (w' & Hrun & Hf & Hr & Hd & Ho).
      exists w'. cbn. rewrite Hrun, Hf, Hr, Hd, Ho. cbn.
      now rewrite <- app_assoc.
    + destruct (IH w) as (w' & Hrun & Hf & Hr & Hd & Ho).
      exists w'. cbn. now rewrite Hrun.
Qed.






(** ** [chat_gpt_wrapper] *)

Section ChatFacts.

Variable respond : list Request -> Request -> string.
Variable syntax_error : string -> option string.

Local Abbreviation chat_rec := (chat_gpt_wrapper_rec respond syntax_error).
Local Abbreviation chat := (chat_gpt_wrapper respond syntax_error).

(** One round of the body, as an equation. *)
Lemma chat_rec_unfold (n : nat) (msgs : list Message) (engine model : string)
    (max_tokens : Z) (temperature : Q) (w : World) :
  chat_rec n msgs engine model max_tokens temperature w =
  let request := request_of engine model msgs max_tokens temperature in
  let reply := respond (requests w) request in
  let w1 := log_request request w in
  let msgs1 := msgs ++ [assistant_message reply] in
  let code_output := extract_all_python_code reply in
  match ast_parse syntax_error code_output with
  | NotSource => (Raise TypeError, msgs1, w1)
  | Parsed => (Ok code_output, msgs1, w1)
  | SyntaxError e =>
      match n with
      | S n' =>
          chat_rec n' msgs1 engine default_model max_tokens temperature
            (print_line "Rerunning..."
               (print_line ("Syntax error in generated code: " +:+ e) w1))
      | 0 => (Ok code_output, msgs1,
              print_line ("Syntax error in generated code: " +:+ e) w1)
      end
  end.
Proof. destruct n; reflexivity. Qed.

(** What every call does, whatever the replies: a first request with the
    arguments of the call, then retries that all name the default model;
    the list grows by the replies, in order; no file is touched. *)
Lemma chat_rec_trace (n : nat) (msgs : list Message) (engine model : string)
    (max_tokens : Z) (temperature : Q) (w : World) :
  exists r msgs' w' rest replies,
    chat_rec n msgs engine model max_tokens temperature w = (r, msgs', w') /\
    requests w' =
      requests w ++ request_of engine model msgs max_tokens temperature :: rest /\
    Forall (fun req => req_model req = default_model) rest /\
    msgs' = msgs ++
            assistant_message
              (respond (requests w)
                 (request_of engine model msgs max_tokens temperature))
            :: map assistant_message replies /\
    files w' = files w /\
    default_input_messages w' = default_input_messages w.
Proof.
  revert msgs model w. induction n as [|n IH]; intros msgs model w;
    rewrite chat_rec_unfold; cbv zeta;
    destruct (ast_parse syntax_error _) as [|e|].
  1,3,4,6: do 3 eexists; exists [], []; repeat split; constructor.
  - do 3 eexists. exists [], []. repeat split; constructor.
  - set (req := request_of engine model msgs max_tokens temperature).
    set (msgs1 := msgs ++ [assistant_message (respond (requests w) req)]).
    match goal with |- context [chat_rec n msgs1 _ _ _ _ ?w1] =>
      destruct (IH msgs1 default_model w1)
        as (r & msgs' & w' & rest & replies & Hrun & Hreq & Hrest & Hmsgs & Hf & Hd)
    end.
    exists r, msgs', w'.
    exists (request_of engine default_model msgs1 max_tokens temperature :: rest).
    eexists (_ :: replies).
    split; [exact Hrun |]. split; [|split; [|split; [|split]]].
    + rewrite Hreq. cbn. now rewrite <- app_assoc.
    + constructor; [reflexivity | exact Hrest].
    + rewrite Hmsgs. unfold msgs1. rewrite <- app_assoc. reflexivity.
    + rewrite Hf. reflexivity.
    + rewrite Hd. reflexivity.
Qed.

(** C8: the requests of one call are a first request that names the model
    passed by the caller, followed by the retries, each of which names the
    default model ["gpt-4"]. *)
Theorem retries_use_default_model (input_messages : option (list Message))
    (engine model : string) (max_tokens : Z) (temperature : Q)
    (reruns_if_fail : Z) (w : World) :
  exists first retries,
    requests (snd (chat input_messages engine model max_tokens temperature
                     reruns_if_fail w))
    = requests w ++ first :: retries /\
    req_model first = model /\
    Forall (fun req => req_model req = "gpt-4") retries.
Proof.
  unfold chat_gpt_wrapper.
  set (l := match input_messages with
            | Some l => l
            | None => default_input_messages w
            end).
  destruct (chat_rec_trace (Z.to_nat reruns_if_fail) l engine model
              max_tokens temperature w)
    as (r & msgs' & w' & rest & replies & Hrun & Hreq & Hrest & _).
  rewrite Hrun.
  exists (request_of engine model l max_tokens temperature), rest.
  split; [|split; [reflexivity | exact Hrest]].
  destruct input_messages; exact Hreq.
Qed.

(** C10: two successive calls that omit [input_messages] share the default
    list: the first request of the second call carries the list the first
    call started from followed by the replies appended during the first
    call, so it differs from the first request of the first call. *)
Theorem default_session_shared_between_calls
    (engine1 model1 : string) (max_tokens1 : Z) (temperature1 : Q) (reruns1 : Z)
    (engine2 model2 : string) (max_tokens2 : Z) (temperature2 : Q) (reruns2 : Z)
    (w : World) :
  let w1 := snd (chat None engine1 model1 max_tokens1 temperature1 reruns1 w) in
  let w2 := snd (chat None engine2 model2 max_tokens2 temperature2 reruns2 w1) in
  exists first1 rest1 first2 rest2 reply replies,
    requests w1 = requests w ++ first1 :: rest1 /\
    requests w2 = requests w1 ++ first2 :: rest2 /\
    req_messages first1 = default_input_messages w /\
    default_input_messages w1 =
      default_input_messages w ++ map assistant_message (reply :: replies) /\
    req_messages first2 =
      default_input_messages w ++ map assistant_message (reply :: replies) /\
    req_messages first2 <> req_messages first1.
Proof.
  intros w1 w2. subst w2 w1. unfold chat_gpt_wrapper.
  destruct (chat_rec_trace (Z.to_nat reruns1) (default_input_messages w)
              engine1 model1 max_tokens1 temperature1 w)
    as (r1 & l1 & w1 & rest1 & replies & Hrun1 & Hreq1 & _ & Hl1 & _ & _).
  rewrite Hrun1. cbn [snd].
  set (w1' := set_default_input_messages l1 w1).
  destruct (chat_rec_trace (Z.to_nat reruns2) (default_input_messages w1')
              engine2 model2 max_tokens2 temperature2 w1')
    as (r2 & l2 & w2 & rest2 & replies2 & Hrun2 & Hreq2 & _).
  rewrite Hrun2. cbn [snd].
  eexists _, rest1, _, rest2, _, replies.
  split; [exact Hreq1 |]. split; [exact Hreq2 |].
  split; [reflexivity |]. split; [exact Hl1 |]. split; [exact Hl1 |].
  cbn. rewrite Hl1. intros Heq.
  apply (f_equal length) in Heq. rewrite length_app in Heq. cbn in Heq. lia.
Qed.

End ChatFacts.

(** ** The retry loop against a model that never produces valid code *)

Section AlwaysInvalid.

Variable respond : list Request -> Request -> string.
Variable syntax_error : string -> option string.

(** Every reply contains a fenced block, and what is extracted from it does
    not parse. *)
Hypothesis always_invalid :
  forall hist req, exists code e,
    extract_all_python_code (respond hist req) = Some code /\
    syntax_error code = Some e.

Lemma chat_rec_always_invalid (n : nat) (msgs : list Message)
    (engine model : string) (max_tokens : Z) (temperature : Q) (w : World) :
  exists code msgs' w' new_requests replies last_reply,
    chat_gpt_wrapper_rec respond syntax_error n msgs engine model max_tokens
      temperature w = (Ok (Some code), msgs', w') /\
    requests w' = requests w ++ new_requests /\
    length new_requests = S n /\
    length replies = S n /\
    msgs' = msgs ++ map assistant_message replies /\
    (forall i req, new_requests !! i = Some req ->
       req_messages req = msgs ++ map assistant_message (take i replies) /\
       replies !! i = Some (respond (requests w ++ take i new_requests) req)) /\
    last replies = Some last_reply /\
    extract_all_python_code last_reply = Some code /\
    syntax_error code <> None.
Proof.
  revert msgs model w. induction n as [|n IH]; intros msgs model w;
    rewrite chat_rec_unfold; cbv zeta;
    set (req := request_of engine model msgs max_tokens temperature);
    destruct (always_invalid (requests w) req) as (code & e & Hcode & Hbad);
    unfold ast_parse; rewrite Hcode, Hbad.
  - exists code. do 2 eexists. exists [req], [respond (requests w) req].
    eexists. split; [reflexivity |].
    do 4 (split; [reflexivity |]).
    split; [|split; [reflexivity | split; [exact Hcode | congruence]]].
    intros [|i] req' Hi; [|discriminate].
    injection Hi as <-. cbn. now rewrite !app_nil_r.
  - set (reply := respond (requests w) req).
    set (msgs1 := msgs ++ [assistant_message reply]).
    match goal with |- context [chat_gpt_wrapper_rec _ _ n msgs1 _ _ _ _ ?w1] =>
      assert (Hreq_w1 : requests w1 = requests w ++ [req]) by reflexivity;
      destruct (IH msgs1 default_model w1)
        as (code' & msgs' & w' & new' & replies' & last_reply & Hrun & Hreq
            & Hlen & Hlen' & Hmsgs & Hith & Hlast & Hext & Hbad')
    end.
    exists code', msgs', w', (req :: new'), (reply :: replies'), last_reply.
    split; [exact Hrun |].
    split; [rewrite Hreq, Hreq_w1; now rewrite <- app_assoc |].
    split; [cbn; now rewrite Hlen |].
    split; [cbn; now rewrite Hlen' |].
    split; [rewrite Hmsgs; unfold msgs1; now rewrite <- app_assoc |].
    split; [|split; [|split; assumption]].
    + intros [|i] req' Hi.
      * injection Hi as <-. cbn. now rewrite !app_nil_r.
      * destruct (Hith i req' Hi) as [Hm Hr]. split.
        -- rewrite Hm. unfold msgs1. now rewrite <- app_assoc.
        -- change ((reply :: replies') !! S i) with (replies' !! i).
           rewrite Hr, Hreq_w1. cbn. now rewrite <- app_assoc.
    + rewrite last_cons, Hlast. reflexivity.
Qed.

(** C4: with a retry budget [R >= 0] and a model whose replies never parse,
    the call sends exactly [R + 1] requests and returns what was extracted
    from the last reply, which still does not parse, together with the
    session; the session holds every reply, and each retry was sent with the
    failed replies before it. *)
Theorem always_invalid_exhausts_budget (input_messages : list Message)
    (engine model : string) (max_tokens : Z) (temperature : Q)
    (R : Z) (w : World) :
  (0 <= R)%Z ->
  exists code session w' new_requests replies last_reply,
    chat_gpt_wrapper respond syntax_error (Some input_messages) engine model
      max_tokens temperature R w = (Ok (Some code, session), w') /\
    requests w' = requests w ++ new_requests /\
    Z.of_nat (length new_requests) = (R + 1)%Z /\
    length replies = length new_requests /\
    session = input_messages ++ map assistant_message replies /\
    (forall i req, new_requests !! i = Some req ->
       req_messages req = input_messages ++ map assistant_message (take i replies) /\
       replies !! i = Some (respond (requests w ++ take i new_requests) req)) /\
    last replies = Some last_reply /\
    extract_all_python_code last_reply = Some code /\
    syntax_error code <> None.
Proof.
  intros HR. unfold chat_gpt_wrapper.
  destruct (chat_rec_always_invalid (Z.to_nat R) input_messages engine model
              max_tokens temperature w)
    as (code & msgs' & w' & new & replies & last_reply & Hrun & Hreq & Hlen
        & Hlen' & Hmsgs & Hith & Hlast & Hext & Hbad).
  rewrite Hrun.
  exists code, msgs', w', new, replies, last_reply.
  repeat (split; [first [reflexivity | assumption | lia] |]).
  assumption.
Qed.

End AlwaysInvalid.

Lemma always_invalid_exhausts_budget_witness :
  exists code session w' new_requests replies last_reply,
    chat_gpt_wrapper Stubs.respond_invalid Stubs.syntax_bad
      (Some [{| role := system; content := "you are providing unit test" |}])
      "GPT4" "gpt-35-turbo" 1000 0.2 2 Stubs.w0 = (Ok (Some code, session), w') /\
    requests w' = requests Stubs.w0 ++ new_requests /\
    Z.of_nat (length new_requests) = (2 + 1)%Z /\
    length replies = length new_requests /\
    session = [{| role := system; content := "you are providing unit test" |}]
              ++ map assistant_message replies /\
    (forall i req, new_requests !! i = Some req ->
       req_messages req =
         [{| role := system; content := "you are providing unit test" |}]
         ++ map assistant_message (take i replies) /\
       replies !! i =
         Some (Stubs.respond_invalid (requests Stubs.w0 ++ take i new_requests) req)) /\
    last replies = Some last_reply /\
    extract_all_python_code last_reply = Some code /\
    Stubs.syntax_bad code <> None.
Proof.
  apply (always_invalid_exhausts_budget Stubs.respond_invalid Stubs.syntax_bad).
  - intros hist req. exists "def test_it(:", "invalid syntax (<unknown>, line 1)".
    split; vm_compute; reflexivity.
  - lia.
Defined.

(** ** The pipeline *)

(** Splits a hypothesis on a sequence that returned normally at its first
    step. *)
Ltac bind_ok H x w' E :=
  unfold bind in H at 1;
  match type of H with
  | match ?m ?w with _ => _ end = _ =>
      destruct (m w) as [[x|?] w'] eqn:E; [|discriminate H]
  end.

Section PipelineFacts.

Variable respond : list Request -> Request -> string.
Variable syntax_error : string -> option string.

Local Abbreviation chat := (chat_gpt_wrapper respond syntax_error).

(** A call with the default [reruns_if_fail = 0] sends one request.  It
    raises [TypeError] when the reply has no fenced block, and otherwise
    returns what was extracted, whether it parses or not. *)
Lemma chat_without_reruns (msgs : list Message) (engine model : string)
    (max_tokens : Z) (temperature : Q) (w : World) :
  let req := request_of engine model msgs max_tokens temperature in
  let reply := respond (requests w) req in
  match extract_all_python_code reply with
  | None =>
      chat (Some msgs) engine model max_tokens temperature 0 w
      = (Raise TypeError, log_request req w)
  | Some code =>
      exists w',
        chat (Some msgs) engine model max_tokens temperature 0 w
        = (Ok (Some code, msgs ++ [assistant_message reply]), w') /\
        files w' = files w /\
        requests w' = requests w ++ [req] /\
        default_input_messages w' = default_input_messages w
  end.
Proof.
  intros req reply. unfold chat_gpt_wrapper.
  change (Z.to_nat 0) with 0%nat.
  rewrite (chat_rec_unfold respond syntax_error). cbv zeta.
  fold req. fold reply. unfold ast_parse.
  destruct (extract_all_python_code reply) as [code|]; [|reflexivity].
  destruct (syntax_error code); eexists; repeat split.
Qed.

(** The trimming of lines 186-187 keeps the first message, and leaves at
    most five messages: the first and the last four. *)
Lemma trim_session (l : list Message) :
  let l' := if 4 <? length l then take 1 l ++ last_n 4 l else l in
  length l' <= 5 /\ head l' = head l /\
  (5 < length l -> l' = take 1 l ++ drop (length l - 4) l /\ length l' = 5).
Proof.
  cbv zeta. destruct (Nat.ltb_spec 4 (length l)) as [Hlong|Hshort].
  - unfold last_n. rewrite length_app, length_take, length_drop.
    split; [lia |]. split; [now destruct l |].
    intros _. split; [reflexivity | lia].
  - split; [lia |]. split; [reflexivity | lia].
Qed.

Lemma chat_without_reruns_ok (msgs : list Message) (engine model : string)
    (max_tokens : Z) (temperature : Q) (w w' : World)
    (code_output : option string) (msgs' : list Message) :
  chat (Some msgs) engine model max_tokens temperature default_reruns_if_fail w
  = (Ok (code_output, msgs'), w') ->
  let req := request_of engine model msgs max_tokens temperature in
  exists code,
    code_output = Some code /\
    extract_all_python_code (respond (requests w) req) = Some code /\
    msgs' = msgs ++ [assistant_message (respond (requests w) req)] /\
    files w' = files w /\
    requests w' = requests w ++ [req].
Proof.
  intros H req.
  pose proof (chat_without_reruns msgs engine model max_tokens temperature w)
    as Hshape.
  cbv zeta in Hshape. fold req in Hshape.
  unfold default_reruns_if_fail in H.
  destruct (extract_all_python_code (respond (requests w) req)) as [code|].
  - destruct Hshape as (w1 & Hrun & Hf & Hr & _).
    rewrite Hrun in H. injection H as <- <- <-.
    exists code. repeat split; assumption.
  - rewrite Hshape in H. discriminate.
Qed.

Lemma index_ok {A} (l : list A) (i : nat) (w : World) (x : A) (w' : World) :
  index l i w = (Ok x, w') -> l !! i = Some x /\ w' = w.
Proof.
  unfold index, ret, raise. destruct (l !! i); [|discriminate].
  intros [= <- <-]. now split.
Qed.

(** X11: one pass through the body of the method loop: the documentation session
    is cut back to at most five messages with its first message kept, while
    the test session only grows, by the request and the reply. *)
Lemma process_class_method_sessions (file_path doc_package : string)
    (class_method : Callable) (L L' : Locals) (w w' : World) :
  process_class_method respond syntax_error file_path doc_package class_method L w
  = (Ok L', w') ->
  (exists request reply,
     messages L' = messages L ++ [{| role := user; content := request |};
                                  assistant_message reply]) /\
  length (doc_messages L') <= 5 /\
  (doc_messages L <> [] -> head (doc_messages L') = head (doc_messages L)).
Proof.
  intros H. unfold process_class_method in H.
  bind_ok H before_dot w1 E1. apply index_ok in E1 as [_ ->].
  bind_ok H cls w1 E2. apply index_ok in E2 as [_ ->].
  bind_ok H after_dot w1 E3. apply index_ok in E3 as [_ ->].
  bind_ok H fn w1 E4. apply index_ok in E4 as [_ ->].
  bind_ok H res1 w1 E5. destruct res1 as [doc_code doc_messages1].
  apply chat_without_reruns_ok in E5 as (code1 & _ & _ & Hdoc & _).
  bind_ok H shaped w2 E6.
  bind_ok H res2 w3 E7. destruct res2 as [unit_test_code messages2].
  apply chat_without_reruns_ok in E7 as (code2 & _ & _ & Hmsgs & _).
  bind_ok H u w4 E8.
  unfold ret in H. injection H as <- <-. cbn [messages doc_messages].
  split; [|split].
  - do 2 eexists. rewrite Hmsgs, <- app_assoc. reflexivity.
  - apply trim_session.
  - intros Hne. destruct (trim_session doc_messages1) as (_ & Hhead & _).
    cbv zeta in Hhead. rewrite Hhead, Hdoc.
    destruct (doc_messages L); [contradiction | reflexivity].
Qed.

End PipelineFacts.

(** ** The branch of plain functions and the variable [class_name] *)

Lemma for_each_app {A S} (body : A -> S -> Py S) (l1 l2 : list A) (s : S)
    (w : World) :
  for_each body (l1 ++ l2) s w =
  match for_each body l1 s w with
  | (Ok s', w') => for_each body l2 s' w'
  | (Raise e, w') => (Raise e, w')
  end.
Proof.
  revert s w. induction l1 as [|x l1 IH]; intros s w; [reflexivity |].
  cbn [app for_each]. unfold bind.
  destruct (body x s w) as [[s1|e] w1]; [apply IH | reflexivity].
Qed.

Section ClassName.

Variable respond : list Request -> Request -> string.
Variable syntax_error : string -> option string.

Lemma process_function_unbound (file_path engine model : string)
    (max_tokens : Z) (temperature : Q) (obj_key : string) (f : Callable)
    (L : Locals) (w : World) :
  class_name L = None ->
  (forall req, extract_all_python_code (respond (requests w) req) <> None) ->
  exists w',
    process_function respond syntax_error file_path engine model max_tokens
      temperature obj_key f L w = (Raise UnboundLocalError, w') /\
    files w' = files w /\
    length (requests w') = S (length (requests w)).
Proof.
  intros Hunbound Hcode. unfold process_function. unfold bind at 1.
  match goal with |- context [chat_gpt_wrapper _ _ (Some ?msgs) _ _ _ _ _ w] =>
    pose proof (chat_without_reruns respond syntax_error msgs engine model
                  max_tokens temperature w) as Hchat;
    pose proof (Hcode (request_of engine model msgs max_tokens temperature))
      as Hc
  end.
  cbv zeta in Hchat. destruct (extract_all_python_code _) as [code|];
    [|contradiction].
  destruct Hchat as (w1 & Hrun & Hf & Hr & _).
  unfold default_reruns_if_fail. rewrite Hrun, Hunbound.
  exists w1. split; [reflexivity |]. split; [exact Hf |].
  rewrite Hr, length_app. cbn. lia.
Qed.

Lemma process_function_bound (file_path engine model : string)
    (max_tokens : Z) (temperature : Q) (obj_key : string) (f : Callable)
    (L : Locals) (w : World) (c : string) :
  class_name L = Some c ->
  (forall req, extract_all_python_code (respond (requests w) req) <> None) ->
  files w !! ("test_code/unit_test/test_" +:+ c +:+ "_" +:+ obj_key +:+ ".py")
  <> Some Directory ->
  exists L' w' code,
    process_function respond syntax_error file_path engine model max_tokens
      temperature obj_key f L w = (Ok L', w') /\
    files w' =
    <["test_code/unit_test/test_" +:+ c +:+ "_" +:+ obj_key +:+ ".py"
      := File code]> (files w) /\
    class_name L' = Some c.
Proof.
  intros Hbound Hcode Hnodir. unfold process_function. unfold bind at 1.
  match goal with |- context [chat_gpt_wrapper _ _ (Some ?msgs) _ _ _ _ _ w] =>
    pose proof (chat_without_reruns respond syntax_error msgs engine model
                  max_tokens temperature w) as Hchat;
    pose proof (Hcode (request_of engine model msgs max_tokens temperature))
      as Hc
  end.
  cbv zeta in Hchat. destruct (extract_all_python_code _) as [code|];
    [|contradiction].
  destruct Hchat as (w1 & Hrun & Hf & _).
  unfold default_reruns_if_fail. rewrite Hrun, Hbound.
  unfold bind, ret, write_file, test_path_of.
  rewrite Hf.
  destruct (files w !! _) as [[text|]|] eqn:E;
    [| contradiction |];
    do 2 eexists; exists code; (split; [reflexivity |]); cbn;
    (split; reflexivity).
Qed.

Lemma process_class_method_binds (file_path doc_package : string)
    (class_method : Callable) (L L' : Locals) (w w' : World) :
  process_class_method respond syntax_error file_path doc_package class_method L w
  = (Ok L', w') ->
  exists before_dot c,
    PyStr.split (str_of class_method) "." !! 0 = Some before_dot /\
    PyStr.split before_dot " " !! 1 = Some c /\
    class_name L' = Some c.
Proof.
  intros H. unfold process_class_method in H.
  bind_ok H before_dot w1 E1. apply index_ok in E1 as [Hbefore ->].
  bind_ok H cls w1 E2. apply index_ok in E2 as [Hcls ->].
  bind_ok H after_dot w1 E3. apply index_ok in E3 as [_ ->].
  bind_ok H fn w1 E4. apply index_ok in E4 as [_ ->].
  bind_ok H res1 w1 E5. destruct res1 as [doc_code doc_messages1].
  bind_ok H shaped w2 E6.
  bind_ok H res2 w3 E7. destruct res2 as [unit_test_code messages2].
  bind_ok H u w4 E8.
  unfold ret in H. injection H as <- <-.
  exists before_dot, cls. repeat split; assumption.
Qed.

(** Classes without methods are passed over. *)
Lemma empty_classes_are_skipped (file_path doc_package engine model : string)
    (max_tokens : Z) (temperature : Q) (objects : list (string * ObjValue))
    (L : Locals) (w : World) :
  Forall is_empty_class objects ->
  for_each (process_object respond syntax_error file_path doc_package engine
              model max_tokens temperature) objects L w = (Ok L, w).
Proof.
  intros Hempty. induction Hempty as [|[key value] l Hitem Hl IH];
    [reflexivity |].
  unfold is_empty_class in Hitem. cbn [snd] in Hitem. subst value.
  cbn [for_each]. unfold bind, process_object at 1, ret. exact IH.
Qed.

(** Files without code objects leave the sessions, [class_name] and the
    requests as they are, and write at most their own test files. *)
Lemma files_without_code_objects (doc_package engine model : string)
    (max_tokens : Z) (temperature : Q) (skipped : list (string * FileEntry))
    (L : Locals) (w : World) :
  Forall processes_nothing skipped ->
  (forall item, item ∈ skipped -> snd item <> None ->
     files w !! unit_test_path (fst item) <> Some Directory) ->
  exists L' w',
    for_each (process_file respond syntax_error doc_package engine model
                max_tokens temperature) skipped L w = (Ok L', w') /\
    class_name L' = class_name L /\
    requests w' = requests w /\
    (forall p,
       (forall item, item ∈ skipped -> snd item <> None ->
          unit_test_path (fst item) <> p) ->
       files w' !! p = files w !! p) /\
    (forall p, files w' !! p = Some Directory -> files w !! p = Some Directory).
Proof.
  intros Hskip. revert L w.
  induction Hskip as [|[file_path entry] l Hitem Hl IH]; intros L w Hdirs.
  - exists L, w. repeat split; auto.
  - cbn [for_each]. unfold bind. unfold process_file at 1. cbn [fst snd].
    unfold processes_nothing in Hitem. cbn [snd] in Hitem.
    destruct entry as [objects|].
    + unfold bind.
      rewrite (empty_classes_are_skipped _ _ _ _ _ _ _ _ _ Hitem).
      cbn [generated_unit_test]. unfold write_file.
      assert (Hnodir : files w !! unit_test_path file_path <> Some Directory).
      { apply (Hdirs (file_path, Some objects));
          [apply list_elem_of_here | discriminate]. }
      set (w1 := set_files
                   (<[unit_test_path file_path := File EmptyString]> (files w)) w).
      assert (Hstep :
        match files w !! unit_test_path file_path with
        | Some Directory => (Raise IsADirectoryError, w)
        | _ => (Ok tt, w1)
        end = (Ok tt, w1)).
      { destruct (files w !! unit_test_path file_path) as [[text|]|];
          [reflexivity | contradiction | reflexivity]. }
      rewrite Hstep. unfold ret.
      assert (Hback : forall p, files w1 !! p = Some Directory ->
                                files w !! p = Some Directory).
      { intros p. unfold w1. cbn.
        destruct (decide (unit_test_path file_path = p)) as [<-|Hne].
        - rewrite lookup_insert_eq. discriminate.
        - now rewrite lookup_insert_ne. }
      match goal with |- context [for_each _ l ?L1 w1] =>
        destruct (IH L1 w1) as (L' & w' & Hrun & Hclass & Hreq & Hfiles & Hdir)
      end.
      { intros item Hin Hsome Hd. apply Hback in Hd.
        apply (Hdirs item (list_elem_of_further _ _ _ Hin) Hsome Hd). }
      exists L', w'. split; [exact Hrun |]. split; [exact Hclass |].
      split; [exact Hreq |]. split.
      * intros p Hp. rewrite Hfiles.
        -- unfold w1. cbn. apply lookup_insert_ne.
           apply (Hp (file_path, Some objects));
             [apply list_elem_of_here | discriminate].
        -- intros item Hin. apply Hp. now apply list_elem_of_further.
      * intros p Hd. apply Hback, Hdir, Hd.
    + unfold ret.
      match goal with |- context [for_each _ l ?L1 w] =>
        destruct (IH L1 w) as (L' & w' & Hrun & Hclass & Hreq & Hfiles & Hdir)
      end.
      { intros item Hin. apply Hdirs. now apply list_elem_of_further. }
      exists L', w'. split; [exact Hrun |]. split; [exact Hclass |].
      split; [exact Hreq |]. split; [|exact Hdir].
      intros p Hp. apply Hfiles. intros item Hin. apply Hp.
      now apply list_elem_of_further.
Qed.


End ClassName.



(** ** The extractor and replies without code *)

Module ExtractFacts.
Import PyStr PyStrFacts.

Lemma drop_app_length (a b : string) (n : nat) :
  drop (String.length a + n) (a +:+ b) = drop n b.
Proof.
  induction a as [|c a IH]; [reflexivity |].
  rewrite app_cons. exact IH.
Qed.

Lemma drop_app_le (n : nat) (x y : string) :
  n <= String.length x -> drop n (x +:+ y) = drop n x +:+ y.
Proof.
  revert x. induction n as [|n IH]; intros x Hn.
  - now destruct x.
  - destruct x as [|c x]; [cbn in Hn; lia |].
    rewrite app_cons. cbn [drop]. apply IH. cbn in Hn. lia.
Qed.

Lemma drop_0 (s : string) : drop 0 s = s.
Proof. now destruct s. Qed.

Lemma partition_unfold (s sep : string) :
  partition s sep =
  if startswith s sep then Some (EmptyString, drop (String.length sep) s)
  else match s with
       | EmptyString => None
       | String c s' =>
           match partition s' sep with
           | Some (before, after) => Some (String c before, after)
           | None => None
           end
       end.
Proof. now destruct s. Qed.

Lemma startswith_drop (s sep : string) :
  startswith s sep = true -> s = sep +:+ drop (String.length sep) s.
Proof.
  intros H. apply startswith_spec in H as [post ->].
  pose proof (drop_app_length sep post 0) as Hd.
  rewrite Nat.add_0_r, drop_0 in Hd. now rewrite Hd.
Qed.

(** [partition] cuts the string at an occurrence of the separator. *)
Lemma partition_some (s sep a b : string) :
  partition s sep = Some (a, b) -> s = a +:+ sep +:+ b.
Proof.
  revert a. induction s as [|c s IH]; intros a; rewrite partition_unfold;
    destruct (startswith _ sep) eqn:Hstart; try discriminate.
  - intros [= <- <-]. now apply startswith_drop.
  - intros [= <- <-]. now apply startswith_drop.
  - destruct (partition s sep) as [[before after]|]; [|discriminate].
    intros [= <- <-]. rewrite app_cons. f_equal. now apply IH.
Qed.

(** It fails exactly when the separator does not occur. *)
Lemma partition_none (s sep : string) :
  partition s sep = None <-> contains s sep = false.
Proof.
  induction s as [|c s IH]; rewrite partition_unfold; cbn [contains];
    destruct (startswith _ sep); cbn [orb]; try (split; discriminate).
  - split; reflexivity.
  - rewrite <- IH. destruct (partition s sep) as [[before after]|];
      split; (discriminate || reflexivity).
Qed.

(** It cuts at the first occurrence. *)
Lemma partition_first (s sep a0 r0 a r : string) :
  partition s sep = Some (a0, r0) -> s = a +:+ sep +:+ r ->
  String.length a0 <= String.length a.
Proof.
  revert a0 a. induction s as [|c s IH]; intros a0 a; rewrite partition_unfold;
    destruct (startswith _ sep) eqn:Hstart; try discriminate.
  - intros [= <- <-] _. cbn. lia.
  - intros [= <- <-] _. cbn. lia.
  - destruct (partition s sep) as [[before after]|] eqn:Hp; [|discriminate].
    intros [= <- <-] Hs. destruct a as [|c' a].
    + assert (startswith (String c s) sep = true) as Hyes
        by (apply startswith_spec; now exists r).
      congruence.
    + rewrite app_cons in Hs. injection Hs as _ Hs.
      cbn. apply le_n_S. now apply (IH before a eq_refl).
Qed.

(** More rounds than the length of the text find nothing more. *)
Lemma findall_go_fuel (n m : nat) (s : string) :
  String.length s <= n -> String.length s <= m ->
  findall_go n s = findall_go m s.
Proof.
  revert m s. induction n as [|n IH]; intros m s Hn Hm.
  - destruct s; [|cbn in Hn; lia]. now destruct m.
  - destruct m as [|m].
    + destruct s; [reflexivity | cbn in Hm; lia].
    + cbn [findall_go].
      destruct (partition s start_marker) as [[a0 rest]|] eqn:Hp; [|reflexivity].
      destruct (partition rest end_marker) as [[body rest']|] eqn:Hq;
        [|reflexivity].
      apply partition_some in Hp, Hq.
      assert (String.length rest' < String.length s).
      { rewrite Hp, Hq, !length_app. cbn. lia. }
      f_equal. apply IH; lia.
Qed.

Lemma findall_nil_iff (s : string) :
  findall s = [] <->
  ~ exists a b c, s = a +:+ start_marker +:+ b +:+ end_marker +:+ c.
Proof.
  unfold findall. split.
  - intros Hnil (a & b & c & Hs).
    assert (Hlen : String.length s <> 0).
    { rewrite Hs, !length_app. cbn. lia. }
    destruct (String.length s) as [|fuel] eqn:Hfuel; [contradiction |].
    cbn [findall_go] in Hnil.
    destruct (partition s start_marker) as [[a0 rest]|] eqn:Hp.
    + pose proof (partition_first _ _ _ _ _ _ Hp Hs) as Hfirst.
      apply partition_some in Hp.
      assert (Hrest : rest = drop (String.length a0 + 9) (a +:+ start_marker +:+ b)
                             +:+ end_marker +:+ c).
      { assert (H1 : drop (String.length a0 + 9) s = rest).
        { rewrite Hp, drop_app_length.
          change 9 with (String.length start_marker + 0).
          now rewrite drop_app_length, drop_0. }
        rewrite <- H1, Hs.
        replace (a +:+ start_marker +:+ b +:+ end_marker +:+ c)
          with ((a +:+ start_marker +:+ b) +:+ end_marker +:+ c)
          by now rewrite !app_assoc.
        apply drop_app_le. rewrite !length_app. cbn. lia. }
      destruct (partition rest end_marker) as [[body rest']|] eqn:Hq;
        [discriminate |].
      apply partition_none in Hq.
      assert (contains rest end_marker = true) as Hyes
        by (apply contains_spec; eauto).
      congruence.
    + apply partition_none in Hp.
      assert (contains s start_marker = true) as Hyes
        by (apply contains_spec; eauto).
      congruence.
  - intros Hno. destruct (String.length s) as [|fuel]; [reflexivity |].
    cbn [findall_go].
    destruct (partition s start_marker) as [[a0 rest]|] eqn:Hp; [|reflexivity].
    destruct (partition rest end_marker) as [[body rest']|] eqn:Hq;
      [|reflexivity].
    exfalso. apply Hno. exists a0, body, rest'.
    apply partition_some in Hp, Hq. now rewrite <- Hq.
Qed.

End ExtractFacts.

(** X7: the extractor returns [None], and not the empty string, exactly for the
    texts in which no start marker is followed by an end marker. *)
Lemma extract_none_iff (s : string) :
  extract_all_python_code s = None <->
  ~ exists a b c, s = a +:+ start_marker +:+ b +:+ end_marker +:+ c.
Proof.
  rewrite <- ExtractFacts.findall_nil_iff. unfold extract_all_python_code.
  destruct (findall s); split; (discriminate || reflexivity).
Qed.

(** A reply without code makes the call raise [TypeError] at [ast.parse],
    whatever the retry budget, after the reply was appended. *)
Lemma chat_raises_without_code
    (respond : list Request -> Request -> string)
    (syntax_error : string -> option string)
    (msgs : list Message) (engine model : string) (max_tokens : Z)
    (temperature : Q) (reruns_if_fail : Z) (w : World) :
  let req := request_of engine model msgs max_tokens temperature in
  extract_all_python_code (respond (requests w) req) = None ->
  chat_gpt_wrapper respond syntax_error (Some msgs) engine model max_tokens
    temperature reruns_if_fail w
  = (Raise TypeError, log_request req w).
Proof.
  intros req Hnone. unfold chat_gpt_wrapper.
  rewrite chat_rec_unfold. cbv zeta. fold req. now rewrite Hnone.
Qed.

(** C5 (the code departs from the claim): for a reply without a fenced block
    the extractor returns [None]; the run then ends with [TypeError] at the
    first generation call, after one request, and writes no file. *)
Theorem no_code_reply_aborts_the_run :
  extract_all_python_code Stubs.no_code_reply = None /\
  (let run :=
     generate_unit_test Stubs.respond_no_code Stubs.syntax_ok Stubs.catalog_class
       "test_code" "This repo checks data quality." "pytest" "sphinx"
       "Python 3.9" "GPT4" "gpt-4" 1000 0.4 Stubs.w0 in
   fst run = Raise TypeError /\
   files (snd run) = files Stubs.w0 /\
   length (requests (snd run)) = 1).
Proof. vm_compute. repeat split. Qed.

(** C3 (the code departs from the claim): after three class methods the
    documentation session holds five messages, the system message first,
    while the test session holds all seven and was sent to the model with
    six: nothing trims it. *)
Theorem test_session_is_never_trimmed :
  let run :=
    generate_unit_test_locals Stubs.respond_valid Stubs.syntax_ok
      Stubs.catalog_class "test_code" "This repo checks data quality."
      "pytest" "sphinx" "Python 3.9" "GPT4" "gpt-4" 1000 0.4 Stubs.w0 in
  match fst run with
  | Ok L =>
      length (doc_messages L) = 5 /\
      head (doc_messages L)
      = Some {| role := system; content := doc_prompt "sphinx" |} /\
      length (messages L) = 7 /\
      map (fun r => length (req_messages r)) (requests (snd run))
      = [2; 2; 4; 4; 6; 6]
  | Raise _ => False
  end.
Proof. vm_compute. repeat split. Qed.

(** * Further properties *)

(** ** More on [chat_gpt_wrapper] *)

Section ChatMore.

Variable respond : list Request -> Request -> string.
Variable syntax_error : string -> option string.

Local Abbreviation chat_rec := (chat_gpt_wrapper_rec respond syntax_error).
Local Abbreviation chat := (chat_gpt_wrapper respond syntax_error).

(** The requests of a call and its outcome, by induction on the budget. *)
Lemma chat_rec_summary (n : nat) (msgs : list Message) (engine model : string)
    (max_tokens : Z) (temperature : Q) (w : World) :
  exists r msgs' w' new_requests,
    chat_rec n msgs engine model max_tokens temperature w = (r, msgs', w') /\
    requests w' = requests w ++ new_requests /\
    1 <= length new_requests <= S n /\
    Forall (fun req => req_engine req = engine /\
                       req_max_tokens req = max_tokens /\
                       req_temperature req = temperature) new_requests /\
    match r with
    | Raise err => err = TypeError
    | Ok code_output =>
        exists code, code_output = Some code /\
          (syntax_error code <> None -> length new_requests = S n)
    end.
Proof.
  revert msgs model w. induction n as [|n IH]; intros msgs model w;
    rewrite chat_rec_unfold; cbv zeta; unfold ast_parse;
    set (req := request_of engine model msgs max_tokens temperature);
    (destruct (extract_all_python_code (respond (requests w) req)) as [code|];
     [destruct (syntax_error code) as [e|] eqn:Hsyntax |]).
  - do 3 eexists. exists [req]. split; [reflexivity |].
    split; [reflexivity |]. split; [cbn; lia |].
    split; [repeat constructor |]. exists code. split; [reflexivity |].
    reflexivity.
  - do 3 eexists. exists [req]. split; [reflexivity |].
    split; [reflexivity |]. split; [cbn; lia |].
    split; [repeat constructor |]. exists code. split; [reflexivity |].
    congruence.
  - do 3 eexists. exists [req]. split; [reflexivity |].
    split; [reflexivity |]. split; [cbn; lia |].
    split; [repeat constructor | reflexivity].
  - set (msgs1 := msgs ++ [assistant_message (respond (requests w) req)]).
    match goal with |- context [chat_gpt_wrapper_rec _ _ n msgs1 _ _ _ _ ?w1] =>
      assert (Hreq_w1 : requests w1 = requests w ++ [req]) by reflexivity;
      destruct (IH msgs1 default_model w1)
        as (r & msgs' & w' & new' & Hrun & Hreq & Hlen & Hall & Hres)
    end.
    exists r, msgs', w', (req :: new'). split; [exact Hrun |].
    split; [rewrite Hreq, Hreq_w1; now rewrite <- app_assoc |].
    split; [cbn; lia |].
    split; [constructor; [repeat split | exact Hall] |].
    destruct r as [code_output|err]; [|exact Hres].
    destruct Hres as (code' & -> & Hfull). exists code'.
    split; [reflexivity |]. intros Hbad. cbn. now rewrite (Hfull Hbad).
  - do 3 eexists. exists [req]. split; [reflexivity |].
    split; [reflexivity |]. split; [cbn; lia |].
    split; [repeat constructor |]. exists code. split; [reflexivity |].
    congruence.
  - do 3 eexists. exists [req]. split; [reflexivity |].
    split; [reflexivity |]. split; [cbn; lia |].
    split; [repeat constructor | reflexivity].
Qed.

Lemma chat_requests (input_messages : option (list Message))
    (engine model : string) (max_tokens : Z) (temperature : Q)
    (reruns_if_fail : Z) (w : World) :
  exists res w' new_requests,
    chat input_messages engine model max_tokens temperature reruns_if_fail w
    = (res, w') /\
    requests w' = requests w ++ new_requests /\
    1 <= length new_requests <= S (Z.to_nat reruns_if_fail) /\
    Forall (fun req => req_engine req = engine /\
                       req_max_tokens req = max_tokens /\
                       req_temperature req = temperature) new_requests /\
    match res with
    | Raise err => err = TypeError
    | Ok (code_output, _) =>
        exists code, code_output = Some code /\
          (syntax_error code <> None ->
           length new_requests = S (Z.to_nat reruns_if_fail))
    end.
Proof.
  unfold chat_gpt_wrapper.
  set (l := match input_messages with
            | Some l => l
            | None => default_input_messages w
            end).
  destruct (chat_rec_summary (Z.to_nat reruns_if_fail) l engine model
              max_tokens temperature w)
    as (r & msgs' & w' & new & Hrun & Hreq & Hlen & Hall & Hres).
  rewrite Hrun. do 2 eexists. exists new. split; [reflexivity |].
  split; [destruct input_messages; exact Hreq |].
  split; [exact Hlen |]. split; [exact Hall |].
  destruct r; exact Hres.
Qed.

(** X1: when the first reply holds code that parses, the call sends one request
    and returns that code with the session extended by the reply, whatever
    the budget. *)
Theorem first_valid_reply_is_returned (msgs : list Message)
    (engine model : string) (max_tokens : Z) (temperature : Q)
    (reruns_if_fail : Z) (w : World) (code : string) :
  let req := request_of engine model msgs max_tokens temperature in
  extract_all_python_code (respond (requests w) req) = Some code ->
  syntax_error code = None ->
  chat (Some msgs) engine model max_tokens temperature reruns_if_fail w
  = (Ok (Some code, msgs ++ [assistant_message (respond (requests w) req)]),
     log_request req w).
Proof.
  intros req Hcode Hvalid. unfold chat_gpt_wrapper.
  rewrite chat_rec_unfold. cbv zeta. fold req. unfold ast_parse.
  now rewrite Hcode, Hvalid.
Qed.

(** X2: every call sends at least one request and at most [reruns_if_fail + 1]
    (one when the budget is negative). *)
Theorem requests_bounded_by_budget (input_messages : option (list Message))
    (engine model : string) (max_tokens : Z) (temperature : Q)
    (reruns_if_fail : Z) (w : World) :
  exists new_requests,
    requests (snd (chat input_messages engine model max_tokens temperature
                     reruns_if_fail w))
    = requests w ++ new_requests /\
    (1 <= Z.of_nat (length new_requests) <= Z.max 0 reruns_if_fail + 1)%Z.
Proof.
  destruct (chat_requests input_messages engine model max_tokens temperature
              reruns_if_fail w)
    as (res & w' & new & Hrun & Hreq & Hlen & _).
  rewrite Hrun. exists new. split; [exact Hreq | lia].
Qed.

Lemma chat_rec_outcome (n : nat) (msgs : list Message) (engine model : string)
    (max_tokens : Z) (temperature : Q) (w : World) :
  match chat_rec n msgs engine model max_tokens temperature w with
  | (Ok code_output, _, _) => code_output <> None
  | (Raise err, _, w') =>
      err = TypeError /\
      exists earlier req,
        requests w' = earlier ++ [req] /\
        extract_all_python_code (respond earlier req) = None
  end.
Proof.
  revert msgs model w. induction n as [|n IH]; intros msgs model w;
    rewrite chat_rec_unfold; cbv zeta; unfold ast_parse;
    set (req := request_of engine model msgs max_tokens temperature);
    (destruct (extract_all_python_code (respond (requests w) req)) as [code|]
       eqn:Hcode;
     [destruct (syntax_error code) as [e|] |]);
    try discriminate;
    try (split; [reflexivity |]; exists (requests w), req; now split).
  apply IH.
Qed.

(** X3: a call that returns never returns [None] as the code: a reply without
    a fenced block does not get that far.  When the call ends with the
    [TypeError] that [ast.parse] raises for [None], the reply to the last
    request it sent held no fenced block. *)
Theorem returned_code_is_a_string (input_messages : option (list Message))
    (engine model : string) (max_tokens : Z) (temperature : Q)
    (reruns_if_fail : Z) (w : World) :
  let run := chat input_messages engine model max_tokens temperature
               reruns_if_fail w in
  match fst run with
  | Ok (code_output, _) => code_output <> None
  | Raise err =>
      err = TypeError ->
      exists earlier req,
        requests (snd run) = earlier ++ [req] /\
        extract_all_python_code (respond earlier req) = None
  end.
Proof.
  cbv zeta. unfold chat_gpt_wrapper.
  set (l := match input_messages with
            | Some l => l
            | None => default_input_messages w
            end).
  pose proof (chat_rec_outcome (Z.to_nat reruns_if_fail) l engine model
                max_tokens temperature w) as Hout.
  destruct (chat_gpt_wrapper_rec respond syntax_error (Z.to_nat reruns_if_fail)
              l engine model max_tokens temperature w) as [[r l'] w'].
  destruct r as [code_output|err]; cbn [fst snd]; [exact Hout |].
  intros _. destruct Hout as (_ & earlier & req & Hreq & Hnone).
  exists earlier, req. split; [|exact Hnone].
  destruct input_messages; exact Hreq.
Qed.

(** X4: unlike the model, the engine, the token limit and the temperature of the
    caller go with every request of the call, retries included. *)
Theorem retries_keep_other_parameters (input_messages : option (list Message))
    (engine model : string) (max_tokens : Z) (temperature : Q)
    (reruns_if_fail : Z) (w : World) :
  exists new_requests,
    requests (snd (chat input_messages engine model max_tokens temperature
                     reruns_if_fail w))
    = requests w ++ new_requests /\
    Forall (fun req => req_engine req = engine /\
                       req_max_tokens req = max_tokens /\
                       req_temperature req = temperature) new_requests.
Proof.
  destruct (chat_requests input_messages engine model max_tokens temperature
              reruns_if_fail w)
    as (res & w' & new & Hrun & Hreq & _ & Hall & _).
  rewrite Hrun. exists new. split; assumption.
Qed.

(** X5: code that does not parse is returned only once the budget is used up:
    the call has then sent [reruns_if_fail + 1] requests. *)
Theorem invalid_code_only_after_all_retries (msgs session : list Message)
    (engine model : string) (max_tokens : Z) (temperature : Q)
    (reruns_if_fail : Z) (w w' : World) (code : string) :
  (0 <= reruns_if_fail)%Z ->
  chat (Some msgs) engine model max_tokens temperature reruns_if_fail w
  = (Ok (Some code, session), w') ->
  syntax_error code <> None ->
  Z.of_nat (length (requests w')) =
  (Z.of_nat (length (requests w)) + reruns_if_fail + 1)%Z.
Proof.
  intros Hbudget Hrun Hbad.
  destruct (chat_requests (Some msgs) engine model max_tokens temperature
              reruns_if_fail w)
    as (res & w1 & new & Hrun' & Hreq & _ & _ & Hres).
  rewrite Hrun in Hrun'. injection Hrun' as <- <-.
  destruct Hres as (code' & [= <-] & Hfull).
  rewrite Hreq, length_app, (Hfull Hbad). lia.
Qed.

(** X6: a call with an explicit list touches neither the files nor the default
    list, and the session it returns is the list passed followed by
    assistant messages only. *)
Theorem explicit_session_call_frame (msgs : list Message)
    (engine model : string) (max_tokens : Z) (temperature : Q)
    (reruns_if_fail : Z) (w : World) :
  let run := chat (Some msgs) engine model max_tokens temperature
               reruns_if_fail w in
  files (snd run) = files w /\
  default_input_messages (snd run) = default_input_messages w /\
  match fst run with
  | Ok (_, session) =>
      exists replies, session = msgs ++ map assistant_message replies
  | Raise _ => True
  end.
Proof.
  cbv zeta. unfold chat_gpt_wrapper.
  destruct (chat_rec_trace respond syntax_error (Z.to_nat reruns_if_fail) msgs
              engine model max_tokens temperature w)
    as (r & msgs' & w' & rest & replies & Hrun & _ & _ & Hmsgs & Hf & Hd).
  rewrite Hrun. cbn. split; [exact Hf |]. split; [exact Hd |].
  destruct r; [|exact I]. eexists (_ :: replies). exact Hmsgs.
Qed.

End ChatMore.

Lemma first_valid_reply_is_returned_witness :
  chat_gpt_wrapper Stubs.respond_valid Stubs.syntax_ok
    (Some Examples.system_only) "GPT4" "gpt-4" 1000 0.2 3 Stubs.w0
  = (Ok (Some ("def test_it():" +:+ nl +:+ "    assert True"),
         Examples.system_only ++ [assistant_message Stubs.valid_reply]),
     log_request (request_of "GPT4" "gpt-4" Examples.system_only 1000 0.2)
       Stubs.w0).
Proof.
  apply (first_valid_reply_is_returned Stubs.respond_valid Stubs.syntax_ok
           Examples.system_only "GPT4" "gpt-4" 1000 0.2 3 Stubs.w0).
  - vm_compute. reflexivity.
  - reflexivity.
Defined.

Lemma invalid_code_only_after_all_retries_witness :
  exists session w' code,
    chat_gpt_wrapper Stubs.respond_invalid Stubs.syntax_bad
      (Some Examples.system_only) "GPT4" "gpt-4" 1000 0.2 2 Stubs.w0
    = (Ok (Some code, session), w') /\
    Z.of_nat (length (requests w')) =
    (Z.of_nat (length (requests Stubs.w0)) + 2 + 1)%Z.
Proof.
  destruct (chat_gpt_wrapper Stubs.respond_invalid Stubs.syntax_bad
              (Some Examples.system_only) "GPT4" "gpt-4" 1000 0.2 2 Stubs.w0)
    as [res w'] eqn:Hrun.
  pose proof Hrun as Hvalue. vm_compute in Hvalue.
  injection Hvalue as <- <-.
  do 3 eexists. split; [reflexivity |].
  eapply (invalid_code_only_after_all_retries Stubs.respond_invalid
            Stubs.syntax_bad); [| exact Hrun |].
  - lia.
  - vm_compute. discriminate.
Defined.

(** ** More on the pipeline *)

Module ReplaceFacts.
Import PyStr PyStrFacts.

Lemma replace_go_skip (old new : string) (k : nat) (count : option nat)
    (s : string) :
  replace_go old new k count s = replace_go old new 0 count (drop k s).
Proof.
  revert k. induction s as [|c s IH]; intros k.
  - now destruct k.
  - destruct k as [|k]; [reflexivity |]. cbn [replace_go drop]. apply IH.
Qed.

(** [replace] cuts at the first occurrence, as [partition] does, and goes on
    in what follows it. *)
Lemma replace_at_first_occurrence (s old new pre post : string)
    (count : option nat) :
  old <> EmptyString -> may_replace count = true ->
  partition s old = Some (pre, post) ->
  replace s old new count
  = pre +:+ new +:+ replace post old new (dec_count count).
Proof.
  intros Hold Hmay. destruct old as [|a old]; [contradiction |]. clear Hold.
  unfold replace. revert pre.
  induction s as [|c s IH]; intros pre; rewrite ExtractFacts.partition_unfold;
    destruct (startswith _ (String a old)) eqn:Hstart; try discriminate.
  - intros [= <- <-]. cbn [replace_go]. rewrite Hmay, Hstart. cbn [andb].
    rewrite replace_go_skip. cbn [String.length Nat.sub drop].
    now rewrite Nat.sub_0_r.
  - destruct (partition s (String a old)) as [[before after]|]; [|discriminate].
    intros [= <- <-]. cbn [replace_go]. rewrite Hstart, andb_false_r.
    rewrite app_cons. f_equal. now apply IH.
Qed.

Lemma split_no_sep (s : string) (c : ascii) :
  contains s (String c EmptyString) = false -> split s c = [s].
Proof.
  induction s as [|a s IH]; intros H; [reflexivity |].
  cbn [contains startswith] in H. apply orb_false_iff in H as [Hhere Hlater].
  cbn [split]. rewrite Ascii.eqb_sym.
  destruct (Ascii.eqb c a); [discriminate |]. now rewrite (IH Hlater).
Qed.

End ReplaceFacts.

Lemma write_file_effect (path : string) (text : option string) (w w' : World)
    (r : Result unit) :
  write_file path text w = (r, w') ->
  requests w' = requests w /\ stdout w' = stdout w /\
  default_input_messages w' = default_input_messages w /\
  (r = Ok tt ->
   exists t, text = Some t /\ files w' = <[path := File t]> (files w)).
Proof.
  unfold write_file.
  destruct (files w !! path) as [[old|]|]; destruct text as [t|];
    intros [= <- <-]; repeat split; try discriminate; eauto.
Qed.

(** The text spliced in for a generated text (lines 191-194). *)
Lemma splice_documentation_ok (file_path function_to_test : string)
    (doc_code : option string) (w w' : World) (shaped : string) :
  splice_documentation file_path function_to_test doc_code w = (Ok shaped, w') ->
  exists file_content,
    files w !! file_path = Some (File file_content) /\
    files w' = <[file_path :=
                   File (PyStr.replace file_content function_to_test shaped None)]>
                 (files w) /\
    requests w' = requests w.
Proof.
  intros H. unfold splice_documentation in H.
  bind_ok H file_content w1 E1. unfold read_file in E1.
  destruct (files w !! file_path) as [[text|]|] eqn:Hfile; try discriminate.
  injection E1 as <- <-.
  bind_ok H d w2 E2.
  destruct doc_code as [code|]; [|discriminate].
  unfold ret in E2. injection E2 as <- <-.
  bind_ok H u w3 E3. unfold ret in H. injection H as <- <-.
  apply write_file_effect in E3 as (Hr & _ & _ & Hw).
  destruct u. destruct (Hw eq_refl) as (t & [= <-] & Hfiles).
  exists text. repeat split; assumption.
Qed.

Section PipelineMore.

Variable respond : list Request -> Request -> string.
Variable syntax_error : string -> option string.

(** X15: when the source text of the function occurs in the file, the splice
    replaces its first occurrence and every later one in what follows, by the
    generated text without its first line when that starts with ["class"],
    and indented by four spaces otherwise. *)
Theorem splice_replaces_every_occurrence
    (file_path function_to_test doc_code content pre post : string) (w : World) :
  files w !! file_path = Some (File content) ->
  function_to_test <> EmptyString ->
  PyStr.partition content function_to_test = Some (pre, post) ->
  let shaped :=
    if PyStr.startswith doc_code "class"
    then PyStr.join nl (drop 1 (PyStr.split doc_code "010"%char))
    else "    " +:+ PyStr.replace doc_code nl (nl +:+ "    ") None in
  splice_documentation file_path function_to_test (Some doc_code) w
  = (Ok shaped,
     set_files
       (<[file_path :=
            File (pre +:+ shaped
                  +:+ PyStr.replace post function_to_test shaped None)]>
          (files w)) w).
Proof.
  intros Hfile Hne Hcut shaped.
  unfold splice_documentation, bind, read_file, ret, write_file.
  rewrite Hfile. fold shaped.
  rewrite (ReplaceFacts.replace_at_first_occurrence _ _ shaped _ _ None
             Hne eq_refl Hcut).
  now rewrite Hfile.
Qed.

(** X14: a method whose [str] has no dot makes the loop body raise [IndexError]
    before anything is sent or written. *)
Theorem method_without_dot_raises (file_path doc_package : string)
    (class_method : Callable) (L : Locals) (w : World) :
  PyStr.contains (str_of class_method) "." = false ->
  process_class_method respond syntax_error file_path doc_package class_method
    L w = (Raise IndexError, w).
Proof.
  intros Hnodot. unfold process_class_method.
  rewrite (ReplaceFacts.split_no_sep _ _ Hnodot).
  unfold bind at 1. cbn [index lookup list_lookup ret].
  unfold bind at 1. unfold index at 1.
  destruct (PyStr.split (str_of class_method) " " !! 1); reflexivity.
Qed.

(** X12: one pass through the body of the method loop sends exactly two requests,
    the documentation request and then the test request, each with the
    session of its thread followed by one user message.  Both carry the
    default engine, model, token limit and temperature, not the ones passed to
    [generate_unit_test]. *)
Theorem class_method_sends_two_default_requests
    (file_path doc_package : string) (class_method : Callable)
    (L L' : Locals) (w w' : World) :
  process_class_method respond syntax_error file_path doc_package class_method
    L w = (Ok L', w') ->
  exists doc_request test_request,
    requests w' =
    requests w ++
    [request_of "GPT4" "gpt-4"
       (doc_messages L ++ [{| role := user; content := doc_request |}])
       1000 0.2;
     request_of "GPT4" "gpt-4"
       (messages L ++ [{| role := user; content := test_request |}])
       1000 0.2].
Proof.
  intros H. unfold process_class_method in H.
  bind_ok H before_dot w1 E1. apply index_ok in E1 as [_ ->].
  bind_ok H cls w1 E2. apply index_ok in E2 as [_ ->].
  bind_ok H after_dot w1 E3. apply index_ok in E3 as [_ ->].
  bind_ok H fn w1 E4. apply index_ok in E4 as [_ ->].
  bind_ok H res1 w1 E5. destruct res1 as [doc_code doc_messages1].
  apply chat_without_reruns_ok in E5 as (code1 & _ & _ & _ & _ & Hreq1).
  bind_ok H shaped w2 E6.
  apply splice_documentation_ok in E6 as (content & _ & _ & Hreq2).
  bind_ok H res2 w3 E7. destruct res2 as [unit_test_code messages2].
  apply chat_without_reruns_ok in E7 as (code2 & _ & _ & _ & _ & Hreq3).
  bind_ok H u w4 E8. apply write_file_effect in E8 as (Hreq4 & _).
  unfold ret in H. injection H as <- <-.
  do 2 eexists. rewrite Hreq4, Hreq3, Hreq2, Hreq1, <- app_assoc. reflexivity.
Qed.

(** X13: the branch of a plain function sends exactly one request, with the
    engine, model, token limit and temperature passed to it, and extends the
    test session by its request and the reply; the documentation session and
    [class_name] stay as they are. *)
Theorem plain_function_sends_one_request (file_path engine model : string)
    (max_tokens : Z) (temperature : Q) (obj_key : string) (f : Callable)
    (L L' : Locals) (w w' : World) :
  process_function respond syntax_error file_path engine model max_tokens
    temperature obj_key f L w = (Ok L', w') ->
  exists prompt reply,
    requests w' =
    requests w ++
    [request_of engine model
       (messages L ++ [{| role := user; content := prompt |}])
       max_tokens temperature] /\
    messages L' =
    messages L ++ [{| role := user; content := prompt |};
                   assistant_message reply] /\
    doc_messages L' = doc_messages L /\
    class_name L' = class_name L.
Proof.
  intros H. unfold process_function in H.
  bind_ok H res w1 E1. destruct res as [unit_test_code messages1].
  apply chat_without_reruns_ok in E1 as (code & _ & _ & Hmsgs & _ & Hreq1).
  bind_ok H cls w2 E2.
  destruct (class_name L) as [c|] eqn:Hclass; [|discriminate].
  unfold ret in E2. injection E2 as <- <-.
  bind_ok H u w3 E3. apply write_file_effect in E3 as (Hreq2 & _).
  unfold ret in H. injection H as <- <-. cbn.
  do 2 eexists. split; [rewrite Hreq2, Hreq1; reflexivity |].
  split; [rewrite Hmsgs, <- app_assoc; reflexivity |].
  split; reflexivity.
Qed.

(** X16: for a file path without a backslash, whose artifact path is the path
    itself, the test file of the whole file is written over the source
    file. *)
Theorem process_file_overwrites_source (doc_package engine model : string)
    (max_tokens : Z) (temperature : Q) (file_path : string)
    (objects : list (string * ObjValue)) (L L' : Locals) (w w' : World) :
  PyStr.contains file_path backslash = false ->
  process_file respond syntax_error doc_package engine model max_tokens
    temperature (file_path, Some objects) L w = (Ok L', w') ->
  files w' !! file_path = Some (File (generated_unit_test L')).
Proof.
  intros Hposix H.
  assert (Hsame : unit_test_path file_path = file_path).
  { unfold unit_test_path, PyStr.reversed.
    rewrite PyStrFacts.replace_absent.
    - apply PyStrFacts.rev_involutive.
    - etransitivity; [exact (PyStrFacts.contains_rev file_path backslash) |].
      exact Hposix. }
  unfold process_file in H. cbn [fst snd] in H. rewrite Hsame in H.
  bind_ok H L1 w1 E1. bind_ok H u w2 E2.
  unfold ret in H. injection H as <- <-.
  apply write_file_effect in E2 as (_ & _ & _ & Hw).
  destruct u. destruct (Hw eq_refl) as (t & [= <-] & ->).
  apply lookup_insert_eq.
Qed.

End PipelineMore.

(** ** Instances of the properties above *)

Lemma splice_replaces_every_occurrence_witness :
  exists shaped w',
    splice_documentation "pkg/mod.py" (getsource (Stubs.method "DataCheck" "a"))
      (Some ("def a(self) -> int:" +:+ nl +:+ "    return 1"))
      Examples.w_source = (Ok shaped, w').
Proof.
  do 2 eexists.
  apply (splice_replaces_every_occurrence "pkg/mod.py"
           (getsource (Stubs.method "DataCheck" "a"))
           ("def a(self) -> int:" +:+ nl +:+ "    return 1")
           Examples.source_text ("class DataCheck:" +:+ nl)
           (getsource (Stubs.method "DataCheck" "b")) Examples.w_source).
  - vm_compute. reflexivity.
  - vm_compute. discriminate.
  - vm_compute. reflexivity.
Defined.

Lemma method_without_dot_raises_witness :
  process_class_method Stubs.respond_valid Stubs.syntax_ok "pkg/mod.py"
    "sphinx" Examples.builtin Examples.locals0 Stubs.w0
  = (Raise IndexError, Stubs.w0).
Proof.
  apply (method_without_dot_raises Stubs.respond_valid Stubs.syntax_ok).
  vm_compute. reflexivity.
Defined.

Lemma class_method_sends_two_default_requests_witness :
  exists L' w' doc_request test_request,
    process_class_method Stubs.respond_valid Stubs.syntax_ok "pkg/mod.py"
      "sphinx" (Stubs.method "DataCheck" "a") Examples.locals0 Examples.w_source
    = (Ok L', w') /\
    requests w' =
    requests Examples.w_source ++
    [request_of "GPT4" "gpt-4"
       (doc_messages Examples.locals0
        ++ [{| role := user; content := doc_request |}]) 1000 0.2;
     request_of "GPT4" "gpt-4"
       (messages Examples.locals0
        ++ [{| role := user; content := test_request |}]) 1000 0.2].
Proof.
  destruct (process_class_method Stubs.respond_valid Stubs.syntax_ok
              "pkg/mod.py" "sphinx" (Stubs.method "DataCheck" "a")
              Examples.locals0 Examples.w_source) as [res w'] eqn:Hrun.
  pose proof Hrun as Hvalue. vm_compute in Hvalue.
  injection Hvalue as <- <-.
  destruct (class_method_sends_two_default_requests _ _ _ _ _ _ _ _ _ Hrun)
    as (doc_request & test_request & Hreq).
  do 2 eexists. exists doc_request, test_request.
  split; [reflexivity | exact Hreq].
Defined.

Lemma process_class_method_sessions_witness :
  exists L' w',
    process_class_method Stubs.respond_valid Stubs.syntax_ok "pkg/mod.py"
      "sphinx" (Stubs.method "DataCheck" "a") Examples.locals0 Examples.w_source
    = (Ok L', w') /\
    length (doc_messages L') <= 5 /\
    head (doc_messages L') = head (doc_messages Examples.locals0).
Proof.
  destruct (process_class_method Stubs.respond_valid Stubs.syntax_ok
              "pkg/mod.py" "sphinx" (Stubs.method "DataCheck" "a")
              Examples.locals0 Examples.w_source) as [res w'] eqn:Hrun.
  pose proof Hrun as Hvalue. vm_compute in Hvalue.
  injection Hvalue as <- <-.
  destruct (process_class_method_sessions _ _ _ _ _ _ _ _ _ Hrun)
    as (_ & Hlen & Hhead).
  do 2 eexists. split; [reflexivity |]. split; [exact Hlen |].
  apply Hhead. discriminate.
Defined.

Lemma plain_function_sends_one_request_witness :
  exists L' w' prompt reply,
    process_function Stubs.respond_valid Stubs.syntax_ok "pkg/util.py"
      "GPT4" "gpt-35-turbo" 500 0.4 "helper" (Stubs.plain_function "helper")
      Examples.locals_bound Stubs.w0 = (Ok L', w') /\
    requests w' =
    requests Stubs.w0 ++
    [request_of "GPT4" "gpt-35-turbo"
       (messages Examples.locals_bound
        ++ [{| role := user; content := prompt |}]) 500 0.4] /\
    messages L' =
    messages Examples.locals_bound
    ++ [{| role := user; content := prompt |}; assistant_message reply].
Proof.
  destruct (process_function Stubs.respond_valid Stubs.syntax_ok "pkg/util.py"
              "GPT4" "gpt-35-turbo" 500 0.4 "helper"
              (Stubs.plain_function "helper") Examples.locals_bound Stubs.w0)
    as [res w'] eqn:Hrun.
  pose proof Hrun as Hvalue. vm_compute in Hvalue.
  injection Hvalue as <- <-.
  destruct (plain_function_sends_one_request _ _ _ _ _ _ _ _ _ _ _ _ _ Hrun)
    as (prompt & reply & Hreq & Hmsgs & _).
  do 2 eexists. exists prompt, reply.
  split; [reflexivity |]. split; assumption.
Defined.

Lemma process_file_overwrites_source_witness :
  exists L' w',
    process_file Stubs.respond_valid Stubs.syntax_ok "sphinx" "GPT4" "gpt-4"
      1000 0.4
      ("pkg/mod.py",
       Some [("DataCheck", Methods [("a", Stubs.method "DataCheck" "a")])])
      Examples.locals0 Examples.w_source = (Ok L', w') /\
    files w' !! "pkg/mod.py" = Some (File (generated_unit_test L')).
Proof.
  destruct (process_file Stubs.respond_valid Stubs.syntax_ok "sphinx" "GPT4"
              "gpt-4" 1000 0.4
              ("pkg/mod.py",
               Some [("DataCheck", Methods [("a", Stubs.method "DataCheck" "a")])])
              Examples.locals0 Examples.w_source) as [res w'] eqn:Hrun.
  pose proof Hrun as Hvalue. vm_compute in Hvalue.
  injection Hvalue as <- <-.
  do 2 eexists. split; [reflexivity |].
  eapply (process_file_overwrites_source Stubs.respond_valid Stubs.syntax_ok);
    [| exact Hrun].
  vm_compute. reflexivity.
Defined.

(** ** The dispatcher as a whole, [get_modified_code_files] and [main] *)

Lemma print_each_effect {A} (body : A -> unit -> Py unit) (l : list A) (w : World) :
  (forall x u w0, requests (snd (body x u w0)) = requests w0 /\
                  files (snd (body x u w0)) = files w0) ->
  requests (snd (for_each body l tt w)) = requests w /\
  files (snd (for_each body l tt w)) = files w.
Proof.
  intros Hbody. revert w. induction l as [|x l IH]; intros w; [now cbn |].
  cbn [for_each]. unfold bind.
  destruct (Hbody x tt w) as [Hr Hf].
  destruct (body x tt w) as [[u|e] w1]; cbn [snd] in *.
  - destruct u. destruct (IH w1) as [Hr1 Hf1]. now rewrite Hr1, Hf1.
  - now split.
Qed.

Lemma dispatch_entry_effect (git_diff : string -> option string)
    (item : string * string) (u : unit) (w : World) :
  requests (snd (dispatch_entry git_diff item u w)) = requests w /\
  files (snd (dispatch_entry git_diff item u w)) ⊆ files w.
Proof.
  destruct item as [file_path status]. unfold dispatch_entry. cbv zeta.
  destruct (String.eqb status "D").
  - unfold path_exists, os_remove.
    destruct (bool_decide _); [|now split].
    destruct (files w !! unit_test_path file_path) as [[text|]|];
      cbn; split; try reflexivity.
    apply delete_subseteq.
  - destruct (git_diff file_path) as [out|]; [|now split].
    destruct (print_each_effect
                (fun line (_ : unit) =>
                   if PyStr.startswith line "+ def" || PyStr.startswith line "- def"
                   then print line else ret tt)
                (PyStr.split out "010"%char) w) as [Hr Hf].
    + intros x u0 w0. now destruct (_ || _).
    + rewrite Hr, Hf. now split.
Qed.

Lemma dispatch_effect (git_diff : string -> option string)
    (modified_code_files : list (string * string)) (w : World) :
  requests (snd (dispatch git_diff modified_code_files w)) = requests w /\
  files (snd (dispatch git_diff modified_code_files w)) ⊆ files w.
Proof.
  unfold dispatch. revert w.
  induction modified_code_files as [|item l IH]; intros w; [now cbn |].
  cbn [for_each]. unfold bind.
  destruct (dispatch_entry_effect git_diff item tt w) as [Hr Hf].
  destruct (dispatch_entry git_diff item tt w) as [[u|e] w1]; cbn [snd] in *.
  - destruct u. destruct (IH w1) as [Hr1 Hf1]. rewrite Hr1, Hr.
    split; [reflexivity |]. now transitivity (files w1).
  - now split.
Qed.

(** X19: whatever the entries and the diffs, the dispatcher sends no request to
    the model and neither creates a file nor changes the text of one: the
    files after it are among the files before it. *)
Theorem dispatch_only_removes_files (git_diff : string -> option string)
    (modified_code_files : list (string * string)) (w : World) :
  requests (snd (dispatch git_diff modified_code_files w)) = requests w /\
  files (snd (dispatch git_diff modified_code_files w)) ⊆ files w.
Proof. exact (dispatch_effect git_diff modified_code_files w). Qed.

Module DictFacts.

Lemma dict_has_false (d : list (string * string)) (k : string) :
  dict_has d k = false -> k ∉ map fst d.
Proof.
  induction d as [|[k' v'] d IH]; cbn; intros H; [apply not_elem_of_nil |].
  apply orb_false_iff in H as [Hk Hd]. apply String.eqb_neq in Hk.
  apply not_elem_of_cons. split; [congruence | now apply IH].
Qed.

Lemma dict_set_keys (d : list (string * string)) (k v : string) :
  map fst (dict_set d k v)
  = if dict_has d k then map fst d else map fst d ++ [k].
Proof.
  unfold dict_set. destruct (dict_has d k).
  - rewrite map_map. apply map_ext_in. intros [k' v'] _. cbn.
    destruct (String.eqb_spec k' k); [now subst | reflexivity].
  - now rewrite map_app.
Qed.

Lemma dict_set_nodup (d : list (string * string)) (k v : string) :
  NoDup (map fst d) -> NoDup (map fst (dict_set d k v)).
Proof.
  intros Hd. rewrite dict_set_keys.
  destruct (dict_has d k) eqn:Hk; [exact Hd |].
  apply NoDup_app. split; [exact Hd |]. split; [|apply NoDup_singleton].
  intros x Hx Hx'. apply list_elem_of_singleton in Hx'. subst.
  now apply (dict_has_false d k Hk).
Qed.

Lemma dict_set_elem (d : list (string * string)) (k v : string)
    (kv : string * string) :
  kv ∈ dict_set d k v -> kv ∈ d \/ kv = (k, v).
Proof.
  unfold dict_set. destruct (dict_has d k).
  - intros H. apply list_elem_of_fmap in H as (kv' & -> & Hin).
    destruct (String.eqb (fst kv') k); [now right | now left].
  - intros H. apply elem_of_app in H as [H|H]; [now left |].
    apply list_elem_of_singleton in H. now right.
Qed.

Lemma dict_get_set_same (d : list (string * string)) (k v : string) :
  dict_get (dict_set d k v) k = Some v.
Proof.
  unfold dict_set. destruct (dict_has d k) eqn:Hk.
  - induction d as [|[k' v'] d IH]; [discriminate |]. cbn in Hk |- *.
    destruct (String.eqb k' k) eqn:E; cbn.
    + now rewrite String.eqb_refl.
    + rewrite E. now apply IH.
  - induction d as [|[k' v'] d IH]; cbn.
    + now rewrite String.eqb_refl.
    + cbn in Hk. apply orb_false_iff in Hk as [E Hd]. rewrite E. now apply IH.
Qed.

Lemma dict_get_set_other (d : list (string * string)) (k v k' : string) :
  k' <> k -> dict_get (dict_set d k v) k' = dict_get d k'.
Proof.
  intros Hne. unfold dict_set. destruct (dict_has d k).
  - induction d as [|[k0 v0] d IH]; [reflexivity |]. cbn.
    destruct (String.eqb_spec k0 k) as [->|Hk0]; cbn.
    + apply String.eqb_neq in Hne. rewrite String.eqb_sym in Hne.
      now rewrite Hne.
    + destruct (String.eqb k0 k'); [reflexivity | exact IH].
  - induction d as [|[k0 v0] d IH]; cbn.
    + apply String.eqb_neq in Hne. rewrite String.eqb_sym in Hne.
      now rewrite Hne.
    + destruct (String.eqb k0 k'); [reflexivity | exact IH].
Qed.

End DictFacts.

Module SplitFacts.
Import PyStr PyStrFacts.

Lemma contains_char_cons (a c : ascii) (s : string) :
  contains (String a s) (String c EmptyString)
  = Ascii.eqb c a || contains s (String c EmptyString).
Proof. cbn [contains startswith]. now destruct (Ascii.eqb c a). Qed.

Lemma contains_char_app (x y : string) (c : ascii) :
  contains (x +:+ y) (String c EmptyString)
  = contains x (String c EmptyString) || contains y (String c EmptyString).
Proof.
  induction x as [|a x IH].
  - rewrite app_nil_l. now destruct y.
  - now rewrite app_cons, !contains_char_cons, IH, orb_assoc.
Qed.

Lemma split_nonempty (s : string) (c : ascii) : split s c <> [].
Proof.
  destruct s as [|a s]; cbn [split]; [discriminate |].
  destruct (Ascii.eqb a c); [discriminate |].
  destruct (split s c); discriminate.
Qed.

Lemma split_one (s b : string) (c : ascii) :
  split s c = [b] -> s = b /\ contains b (String c EmptyString) = false.
Proof.
  revert b. induction s as [|a s IH]; intros b; cbn [split].
  - intros [= <-]. now split.
  - pose proof (split_nonempty s c) as Hne.
    destruct (Ascii.eqb a c) eqn:E.
    + intros [= _ Hnil]. contradiction.
    + destruct (split s c) as [|h t] eqn:Hs; [contradiction |].
      intros [= <- ->]. destruct (IH h eq_refl) as [-> Hh].
      split; [reflexivity |].
      rewrite contains_char_cons, Hh, Ascii.eqb_sym, E. reflexivity.
Qed.

(** A line that splits in two is the two parts around one separator. *)
Lemma split_two (s a b : string) (c : ascii) :
  split s c = [a; b] ->
  s = a +:+ String c b /\
  contains a (String c EmptyString) = false /\
  contains b (String c EmptyString) = false.
Proof.
  revert a. induction s as [|x s IH]; intros a; cbn [split]; [discriminate |].
  destruct (Ascii.eqb_spec x c) as [->|Hne].
  - intros [= <- Hrest]. apply split_one in Hrest as [-> Hb].
    split; [reflexivity |]. split; [reflexivity | exact Hb].
  - destruct (split s c) as [|h t] eqn:Hs; [discriminate |].
    intros [= <- ->]. destruct (IH h eq_refl) as (-> & Hh & Hb).
    split; [now rewrite app_cons |]. split; [|exact Hb].
    rewrite contains_char_cons, Hh.
    apply Ascii.eqb_neq in Hne. rewrite Ascii.eqb_sym in Hne.
    now rewrite Hne.
Qed.

Lemma split_app_sep (a b : string) (c : ascii) :
  contains a (String c EmptyString) = false ->
  split (a +:+ String c b) c = a :: split b c.
Proof.
  induction a as [|x a IH]; intros Ha.
  - rewrite app_nil_l. cbn [split]. now rewrite Ascii.eqb_refl.
  - rewrite contains_char_cons in Ha. apply orb_false_iff in Ha as [Hx Ha].
    rewrite app_cons. cbn [split]. rewrite Ascii.eqb_sym, Hx.
    now rewrite (IH Ha).
Qed.

(** A text that ends a line after a separator which it does not contain ends
    the part after the separator. *)
Lemma suffix_after_sep (x y r e : string) (c : ascii) :
  x +:+ String c y = r +:+ e ->
  contains e (String c EmptyString) = false ->
  exists z, y = z +:+ e.
Proof.
  revert r. induction x as [|a x IH]; intros r Heq He.
  - rewrite app_nil_l in Heq. destruct r as [|a r].
    + rewrite app_nil_l in Heq. subst e.
      rewrite contains_char_cons, Ascii.eqb_refl in He. discriminate.
    + rewrite app_cons in Heq. injection Heq as _ ->. now exists r.
  - rewrite app_cons in Heq. destruct r as [|a' r].
    + rewrite app_nil_l in Heq. subst e.
      rewrite contains_char_cons, contains_char_app, contains_char_cons,
        Ascii.eqb_refl, orb_true_r, orb_true_r in He.
      discriminate.
    + rewrite app_cons in Heq. injection Heq as _ Heq. now apply (IH r).
Qed.

Lemma take_drop (n : nat) (s : string) : take n s +:+ drop n s = s.
Proof.
  revert s. induction n as [|n IH]; intros s.
  - destruct s; reflexivity.
  - destruct s as [|c s]; [reflexivity |].
    cbn [take drop]. now rewrite app_cons, IH.
Qed.

End SplitFacts.

Lemma record_changes_effect (code_files : list string)
    (changes : list (string * string)) (w : World) :
  exists w',
    for_each record_change code_files changes w
    = (Ok (fold_left add_change code_files changes), w') /\
    files w' = files w /\ requests w' = requests w.
Proof.
  revert changes w. induction code_files as [|file l IH]; intros changes w.
  - now exists w.
  - cbn [for_each fold_left].
    assert (Hstep : exists w1,
               record_change file changes w = (Ok (add_change changes file), w1)
               /\ files w1 = files w /\ requests w1 = requests w).
    { unfold record_change, add_change, bind, print, ret.
      destruct (PyStr.split file tab) as [|status [|filename [|x t]]];
        eexists; repeat split. }
    destruct Hstep as (w1 & Hstep & Hf & Hr).
    destruct (IH (add_change changes file) w1) as (w' & Hrun & Hf' & Hr').
    exists w'. unfold bind. rewrite Hstep, Hrun.
    repeat split; congruence.
Qed.

Lemma changes_of_nodup (code_files : list string)
    (changes : list (string * string)) :
  NoDup (map fst changes) ->
  NoDup (map fst (fold_left add_change code_files changes)).
Proof.
  revert changes. induction code_files as [|file l IH]; intros changes Hd;
    [exact Hd |].
  cbn [fold_left]. apply IH. unfold add_change.
  destruct (PyStr.split file tab) as [|status [|filename [|x t]]]; try exact Hd.
  now apply DictFacts.dict_set_nodup.
Qed.

Lemma changes_of_elem (code_files : list string)
    (changes : list (string * string)) (filename status : string) :
  (filename, status) ∈ fold_left add_change code_files changes ->
  (filename, status) ∈ changes \/
  exists file, file ∈ code_files /\ PyStr.split file tab = [status; filename].
Proof.
  revert changes. induction code_files as [|file l IH]; intros changes H;
    [now left |].
  cbn [fold_left] in H. apply IH in H as [H | (file' & Hin & Hsplit)].
  - unfold add_change in H.
    destruct (PyStr.split file tab) as [|s [|f [|x t]]] eqn:Hs;
      try (now left).
    apply DictFacts.dict_set_elem in H as [H | [= -> ->]]; [now left |].
    right. exists file. split; [apply list_elem_of_here | exact Hs].
  - right. exists file'. split; [now apply list_elem_of_further | exact Hsplit].
Qed.

Lemma splitext_app (os : OsPath.Flavour) (p : string) :
  fst (OsPath.splitext os p) +:+ snd (OsPath.splitext os p) = p.
Proof.
  destruct os; unfold OsPath.splitext, OsPath._splitext; cbv zeta;
    destruct (_ && _); cbn [fst snd];
    (apply SplitFacts.take_drop || apply PyStrFacts.app_nil_r).
Qed.

Lemma in_list_elem (x : string) (l : list string) :
  in_list x l = true -> x ∈ l.
Proof.
  unfold in_list. intros H. apply existsb_exists in H as (y & Hin & Heq).
  apply String.eqb_eq in Heq. subst. now apply list_elem_of_In.
Qed.

Lemma allowed_extension_no_tab (ext : string) :
  ext ∈ allowed_extensions ->
  PyStr.contains ext (String tab EmptyString) = false.
Proof.
  intros H. apply list_elem_of_In in H. unfold allowed_extensions in H.
  repeat (destruct H as [<-|H]; [reflexivity |]). destruct H.
Qed.

Section ChangesFacts.

Variable os : OsPath.Flavour.


(** X22: every entry of the dict comes from a line of the output of the form
    status, tab, file name, with no other tab, and the file name ends with
    one of the allowed extensions. *)
Theorem changes_come_from_code_lines (output : string) (w w' : World)
    (changes : list (string * string)) (filename status : string) :
  get_modified_code_files os (Some output) w = (Ok changes, w') ->
  (filename, status) ∈ changes ->
  status +:+ String tab filename ∈ PyStr.split output "010"%char /\
  PyStr.contains status (String tab EmptyString) = false /\
  PyStr.contains filename (String tab EmptyString) = false /\
  exists stem ext, ext ∈ allowed_extensions /\ filename = stem +:+ ext.
Proof.
  intros Hrun Hin. unfold get_modified_code_files in Hrun.
  destruct (record_changes_effect
              (List.filter (is_code_file os) (PyStr.split output "010"%char))
              [] w) as (w1 & Hrun' & _).
  rewrite Hrun' in Hrun. injection Hrun as <- <-.
  apply changes_of_elem in Hin as [Hin | (file & Hfile & Hsplit)];
    [now apply elem_of_nil in Hin |].
  apply list_elem_of_In, filter_In in Hfile as [Hline Hcode].
  apply SplitFacts.split_two in Hsplit as (-> & Hstatus & Hname).
  split; [now apply list_elem_of_In |].
  split; [exact Hstatus |]. split; [exact Hname |].
  unfold is_code_file in Hcode. apply in_list_elem in Hcode.
  pose proof (splitext_app os (status +:+ String tab filename)) as Happ.
  destruct (SplitFacts.suffix_after_sep _ _ _ _ _ (eq_sym Happ)
              (allowed_extension_no_tab _ Hcode)) as (stem & Hstem).
  now exists stem, (snd (OsPath.splitext os (status +:+ String tab filename))).
Qed.

(** X23: among the lines kept, the last one that names a file decides its status:
    a well-formed line with an allowed extension after which no line names
    the same file gives the file its status. *)
Theorem last_line_for_a_file_wins (output : string) (w : World)
    (before after : list string) (status filename : string) :
  PyStr.split output "010"%char
  = before ++ (status +:+ String tab filename) :: after ->
  is_code_file os (status +:+ String tab filename) = true ->
  PyStr.contains status (String tab EmptyString) = false ->
  PyStr.contains filename (String tab EmptyString) = false ->
  (forall line s, line ∈ after -> PyStr.split line tab <> [s; filename]) ->
  exists changes w',
    get_modified_code_files os (Some output) w = (Ok changes, w') /\
    dict_get changes filename = Some status.
Proof.
  intros Hlines Hcode Hstatus Hname Hafter. unfold get_modified_code_files.
  destruct (record_changes_effect
              (List.filter (is_code_file os) (PyStr.split output "010"%char))
              [] w) as (w1 & Hrun & _).
  do 2 eexists. split; [exact Hrun |].
  rewrite Hlines, List.filter_app. cbn [List.filter]. rewrite Hcode.
  rewrite fold_left_app. cbn [fold_left].
  set (acc := fold_left add_change (List.filter (is_code_file os) before) []).
  assert (Hset : dict_get (add_change acc (status +:+ String tab filename))
                   filename = Some status).
  { unfold add_change.
    rewrite (SplitFacts.split_app_sep _ _ _ Hstatus),
      (ReplaceFacts.split_no_sep _ _ Hname).
    apply DictFacts.dict_get_set_same. }
  revert Hset. generalize (add_change acc (status +:+ String tab filename)).
  clear Hlines Hrun. induction after as [|line after IH]; intros d Hd;
    [exact Hd |].
  cbn [List.filter].
  assert (Hrest : forall l s, l ∈ after -> PyStr.split l tab <> [s; filename])
    by (intros l s Hl; apply Hafter; now apply list_elem_of_further).
  destruct (is_code_file os line); [|now apply IH].
  cbn [fold_left]. apply (IH Hrest). unfold add_change.
  destruct (PyStr.split line tab) as [|s [|f [|x t]]] eqn:Hs; try exact Hd.
  rewrite DictFacts.dict_get_set_other; [exact Hd |].
  intros ->. apply (Hafter line s (list_elem_of_here _ _)). exact Hs.
Qed.

(** X25: the [__main__] block sends no request to the model and neither creates a
    file nor changes the text of one, whatever git prints. *)
Theorem main_only_removes_files (git_name_status : option string)
    (git_diff : string -> option string)
    (dict_str : list (string * string) -> string) (w : World) :
  requests (snd (main os git_name_status git_diff dict_str w)) = requests w /\
  files (snd (main os git_name_status git_diff dict_str w)) ⊆ files w.
Proof.
  unfold main, bind, get_modified_code_files.
  destruct git_name_status as [output|]; [|now split].
  destruct (record_changes_effect
              (List.filter (is_code_file os) (PyStr.split output "010"%char))
              [] w) as (w1 & Hrun & Hf & Hr).
  rewrite Hrun. unfold print. destruct (negb _).
  - match goal with |- context [dispatch git_diff ?changes ?w2] =>
      destruct (dispatch_effect git_diff changes w2) as [Hr' Hf']
    end.
    rewrite Hr'. split; [exact Hr |]. cbn in Hf'. now rewrite <- Hf.
  - cbn. split; [exact Hr | now rewrite Hf].
Qed.

End ChangesFacts.

Lemma changes_come_from_code_lines_witness :
  "D" +:+ String tab "data/rules.csv"
    ∈ PyStr.split Examples.name_status_output "010"%char /\
  exists stem ext, ext ∈ allowed_extensions /\ "data/rules.csv" = stem +:+ ext.
Proof.
  destruct (get_modified_code_files OsPath.Posix
              (Some Examples.name_status_output) Stubs.w0) as [res w'] eqn:Hrun.
  pose proof Hrun as Hvalue. vm_compute in Hvalue.
  injection Hvalue as <- <-.
  destruct (changes_come_from_code_lines OsPath.Posix _ _ _ _
              "data/rules.csv" "D" Hrun) as (Hline & _ & _ & Hext).
  - apply list_elem_of_further, list_elem_of_here.
  - split; assumption.
Defined.

Lemma last_line_for_a_file_wins_witness :
  exists changes w',
    get_modified_code_files OsPath.Posix (Some Examples.name_status_output)
      Stubs.w0 = (Ok changes, w') /\
    dict_get changes "src/main.py" = Some "A".
Proof.
  apply (last_line_for_a_file_wins OsPath.Posix Examples.name_status_output
           Stubs.w0
           ["M" +:+ String tab "src/main.py";
            "R100" +:+ String tab "old.py" +:+ String tab "new.py";
            "A" +:+ String tab "docs/readme.md";
            "D" +:+ String tab "data/rules.csv"]
           [EmptyString] "A" "src/main.py").
  - vm_compute. reflexivity.
  - vm_compute. reflexivity.
  - vm_compute. reflexivity.
  - vm_compute. reflexivity.
  - intros line s Hline. apply list_elem_of_singleton in Hline. subst line.
    vm_compute. discriminate.
Defined.

(** ** Replies with several fenced blocks *)

Module BlockFacts.
Import PyStr PyStrFacts.

(** When the text before a separator has no character equal to the first one
    of the separator, [partition] cuts there. *)
Lemma partition_prefix_free (x y sep' : string) (a : ascii) :
  contains x (String a EmptyString) = false ->
  partition (x +:+ String a sep' +:+ y) (String a sep') = Some (x, y).
Proof.
  induction x as [|c x IH]; intros Hx; rewrite ExtractFacts.partition_unfold.
  - rewrite app_nil_l.
    assert (Hstart : startswith (String a sep' +:+ y) (String a sep') = true)
      by (apply startswith_spec; now exists y).
    rewrite Hstart.
    pose proof (ExtractFacts.drop_app_length (String a sep') y 0) as Hd.
    rewrite Nat.add_0_r, ExtractFacts.drop_0 in Hd. now rewrite Hd.
  - rewrite SplitFacts.contains_char_cons in Hx.
    apply orb_false_iff in Hx as [Hc Hx].
    rewrite app_cons. cbn [startswith]. rewrite Hc.
    now rewrite (IH Hx).
Qed.

Lemma findall_fenced (prose body rest : string) :
  no_backtick prose -> no_backtick body ->
  findall (fenced prose body +:+ rest) = body :: findall rest.
Proof.
  intros Hprose Hbody. unfold findall, fenced.
  rewrite !app_assoc.
  destruct (String.length _) as [|fuel] eqn:Hlen.
  { rewrite !length_app in Hlen. cbn in Hlen. lia. }
  cbn [findall_go].
  change start_marker with (String "`" "``python").
  rewrite (partition_prefix_free prose _ _ _ Hprose).
  change end_marker with (String "`" "``").
  rewrite (partition_prefix_free body _ _ _ Hbody).
  f_equal. apply ExtractFacts.findall_go_fuel; [|lia].
  rewrite !length_app in Hlen. cbn in Hlen. lia.
Qed.

Lemma findall_without_start (s : string) :
  contains s start_marker = false -> findall s = [].
Proof.
  intros H. unfold findall. destruct (String.length s); [reflexivity |].
  cbn [findall_go]. apply ExtractFacts.partition_none in H. now rewrite H.
Qed.

Lemma findall_reply_of (blocks : list (string * string)) (tail : string) :
  Forall (fun pb => no_backtick (fst pb) /\ no_backtick (snd pb)) blocks ->
  contains tail start_marker = false ->
  findall (reply_of blocks tail) = map snd blocks.
Proof.
  intros Hblocks Htail. induction Hblocks as [|[prose body] l [Hp Hb] Hl IH].
  - now apply findall_without_start.
  - cbn [reply_of fold_right map fst snd] in *.
    rewrite (findall_fenced _ _ _ Hp Hb). now f_equal.
Qed.

End BlockFacts.

(** X8: for a reply made of one or more fenced blocks, each after some prose,
    where neither the prose nor the code holds a backtick and the text after
    the last block holds no start marker, the extractor returns the codes of
    the blocks, each stripped, joined in order with nothing in between. *)
Theorem extract_joins_stripped_blocks (blocks : list (string * string))
    (tail : string) :
  blocks <> [] ->
  Forall (fun pb => no_backtick (fst pb) /\ no_backtick (snd pb)) blocks ->
  PyStr.contains tail start_marker = false ->
  extract_all_python_code (reply_of blocks tail)
  = Some (PyStr.join EmptyString (map PyStr.strip (map snd blocks))).
Proof.
  intros Hne Hblocks Htail. unfold extract_all_python_code.
  rewrite (BlockFacts.findall_reply_of _ _ Hblocks Htail).
  destruct blocks; [contradiction | reflexivity].
Qed.

Lemma extract_joins_stripped_blocks_witness :
  extract_all_python_code (reply_of Examples.three_blocks " done.")
  = Some "x = 1y = 2z = 3".
Proof.
  apply (extract_joins_stripped_blocks Examples.three_blocks " done.").
  - discriminate.
  - repeat constructor.
  - vm_compute. reflexivity.
Defined.

(** ** [os.path.splitext] *)

Module SplitextFacts.
Import PyStr PyStrFacts OsPath.

Lemma rfind_ge (s : string) (c : ascii) : (-1 <= rfind s c)%Z.
Proof.
  induction s as [|a s IH]; cbn [rfind]; [lia |].
  destruct (Z.leb_spec 0 (rfind s c)); [lia |].
  destruct (Ascii.eqb a c); lia.
Qed.

Lemma rfind_none (s : string) (c : ascii) :
  rfind s c = (-1)%Z -> contains s (String c EmptyString) = false.
Proof.
  induction s as [|a s IH]; cbn [rfind]; [reflexivity |].
  pose proof (rfind_ge s c) as Hge.
  destruct (Z.leb_spec 0 (rfind s c)); [lia |].
  destruct (Ascii.eqb a c) eqn:E; [discriminate |]. intros _.
  rewrite SplitFacts.contains_char_cons, Ascii.eqb_sym, E.
  apply IH. lia.
Qed.

(** [rfind] gives the place of the last occurrence. *)
Lemma rfind_split (s : string) (c : ascii) :
  (0 <= rfind s c)%Z ->
  exists pre post,
    s = pre +:+ String c post /\
    Z.of_nat (String.length pre) = rfind s c /\
    contains post (String c EmptyString) = false.
Proof.
  induction s as [|a s IH]; cbn [rfind]; [lia |].
  pose proof (rfind_ge s c) as Hge.
  destruct (Z.leb_spec 0 (rfind s c)) as [Hlater|Hlater].
  - intros _. destruct (IH Hlater) as (pre & post & -> & Hlen & Hpost).
    exists (String a pre), post. rewrite app_cons.
    split; [reflexivity |]. split; [|exact Hpost].
    cbn [String.length]. lia.
  - destruct (Ascii.eqb_spec a c) as [->|Hne]; [|lia]. intros _.
    exists EmptyString, s. split; [reflexivity |]. split; [reflexivity |].
    apply rfind_none. lia.
Qed.

Lemma splitext_generic (p : string) (sep : ascii) (altsep : option ascii) :
  let (root, ext) := _splitext p sep altsep in
  root +:+ ext = p /\
  (ext = EmptyString \/
   exists e, ext = String "." e /\ contains e "." = false).
Proof.
  unfold _splitext. cbv zeta.
  set (sepIndex := match altsep with
                   | Some a => Z.max (rfind p sep) (rfind p a)
                   | None => rfind p sep
                   end).
  assert (Hsep : (-1 <= sepIndex)%Z).
  { unfold sepIndex. pose proof (rfind_ge p sep).
    destruct altsep; [pose proof (rfind_ge p a) |]; lia. }
  destruct (Z.ltb_spec sepIndex (rfind p ".")) as [Hdot|Hdot]; cbn [andb];
    [|split; [apply app_nil_r | now left]].
  destruct (has_non_dot _ _ _); [|split; [apply app_nil_r | now left]].
  split; [apply SplitFacts.take_drop |]. right.
  destruct (rfind_split p "." ltac:(lia)) as (pre & post & Hp & Hlen & Hpost).
  exists post. split; [|exact Hpost].
  rewrite <- Hlen, Nat2Z.id. rewrite Hp.
  pose proof (ExtractFacts.drop_app_length pre (String "." post) 0) as Hd.
  rewrite Nat.add_0_r, ExtractFacts.drop_0 in Hd. exact Hd.
Qed.

End SplitextFacts.

(** X24: on both kinds of system, the two parts [splitext] returns make up the
    path again, and the extension is empty or starts with the only dot in
    it. *)
Theorem splitext_parts (os : OsPath.Flavour) (p : string) :
  let (root, ext) := OsPath.splitext os p in
  root +:+ ext = p /\
  (ext = EmptyString \/
   exists e, ext = String "." e /\ PyStr.contains e "." = false).
Proof.
  destruct os; unfold OsPath.splitext; apply SplitextFacts.splitext_generic.
Qed.

(** ** The artifact path, in general *)

(** X9: the artifact path of a path without a backslash is the path itself, and
    that of a path with one has ["_tset/"] in place of its last backslash:
    the prefix [test_] never gets in front of the file name. *)
Theorem unit_test_path_cases (file_path : string) :
  (PyStr.contains file_path backslash = false ->
   unit_test_path file_path = file_path) /\
  (forall directory name,
     file_path = directory +:+ backslash +:+ name ->
     PyStr.contains name backslash = false ->
     unit_test_path file_path = directory +:+ "_tset/" +:+ name).
Proof.
  split.
  - apply unit_test_path_no_backslash.
  - intros directory name -> Hname.
    now apply unit_test_path_last_backslash.
Qed.

Lemma unit_test_path_cases_witness :
  unit_test_path "src/pkg/module.py" = "src/pkg/module.py".
Proof.
  apply (unit_test_path_cases "src/pkg/module.py"). vm_compute. reflexivity.
Defined.

(** X10: the mapping is not one-to-one: a path whose last separator is a backslash
    and the path with ["_tset/"] in its place are different and have the
    same artifact path. *)
Theorem distinct_paths_share_artifact (directory name : string) :
  PyStr.contains directory backslash = false ->
  PyStr.contains name backslash = false ->
  directory +:+ backslash +:+ name <> directory +:+ "_tset/" +:+ name /\
  unit_test_path (directory +:+ backslash +:+ name)
  = unit_test_path (directory +:+ "_tset/" +:+ name).
Proof.
  intros Hdir Hname. split.
  - intros Heq. apply String.app_inj in Heq. discriminate.
  - rewrite (unit_test_path_last_backslash _ _ Hname).
    symmetry. apply unit_test_path_no_backslash.
    unfold backslash in *.
    rewrite !SplitFacts.contains_char_app, Hdir, Hname. reflexivity.
Qed.

Lemma distinct_paths_share_artifact_witness :
  "src" +:+ backslash +:+ "module.py" <> "src" +:+ "_tset/" +:+ "module.py" /\
  unit_test_path ("src" +:+ backslash +:+ "module.py")
  = unit_test_path ("src" +:+ "_tset/" +:+ "module.py").
Proof.
  apply (distinct_paths_share_artifact "src" "module.py");
    vm_compute; reflexivity.
Defined.

(** X20: for a deleted file whose path has no backslash, the file the dispatcher
    removes is the one at the source path itself, when there is one. *)
Theorem deleted_entry_removes_source_path (git_diff : string -> option string)
    (file_path text : string) (w : World) :
  PyStr.contains file_path backslash = false ->
  files w !! file_path = Some (File text) ->
  dispatch_entry git_diff (file_path, "D") tt w
  = (Ok tt, set_files (delete file_path (files w)) w).
Proof.
  intros Hposix Hfile. unfold dispatch_entry. cbv zeta.
  rewrite (unit_test_path_no_backslash _ Hposix), String.eqb_refl.
  unfold path_exists, os_remove. rewrite Hfile.
  now rewrite bool_decide_eq_true_2 by eauto.
Qed.

Lemma deleted_entry_removes_source_path_witness :
  dispatch_entry Stubs.git_diff_stub ("pkg/mod.py", "D") tt Stubs.w0
  = (Ok tt, set_files (delete "pkg/mod.py" (files Stubs.w0)) Stubs.w0).
Proof.
  apply (deleted_entry_removes_source_path Stubs.git_diff_stub "pkg/mod.py"
           "class DataCheck: pass" Stubs.w0);
    vm_compute; reflexivity.
Defined.

(** ** Whole classes and whole catalogs *)

Section CatalogFacts.

Variable respond : list Request -> Request -> string.
Variable syntax_error : string -> option string.

Lemma process_class_method_messages (file_path doc_package : string)
    (class_method : Callable) (L L' : Locals) (w w' : World) :
  process_class_method respond syntax_error file_path doc_package class_method
    L w = (Ok L', w') ->
  length (messages L') = length (messages L) + 2.
Proof.
  intros H. unfold process_class_method in H.
  bind_ok H before_dot w1 E1. apply index_ok in E1 as [_ ->].
  bind_ok H cls w1 E2. apply index_ok in E2 as [_ ->].
  bind_ok H after_dot w1 E3. apply index_ok in E3 as [_ ->].
  bind_ok H fn w1 E4. apply index_ok in E4 as [_ ->].
  bind_ok H res1 w1 E5. destruct res1 as [doc_code doc_messages1].
  bind_ok H shaped w2 E6.
  bind_ok H res2 w3 E7. destruct res2 as [unit_test_code messages2].
  apply chat_without_reruns_ok in E7 as (code2 & _ & _ & Hmsgs & _).
  bind_ok H u w4 E8.
  unfold ret in H. injection H as <- <-. cbn [messages].
  rewrite Hmsgs, !length_app. cbn. lia.
Qed.

(** X17: a class with [k] methods lengthens the test session by [2 * k] messages:
    nothing is ever taken out of it. *)
Theorem class_lengthens_test_session (file_path doc_package engine model : string)
    (max_tokens : Z) (temperature : Q) (obj_key : string)
    (methods : list (string * Callable)) (L L' : Locals) (w w' : World) :
  process_object respond syntax_error file_path doc_package engine model
    max_tokens temperature (obj_key, Methods methods) L w = (Ok L', w') ->
  length (messages L') = length (messages L) + 2 * length methods.
Proof.
  intros H.
  assert (Hloop :
    for_each (fun kv => process_class_method respond syntax_error file_path
                          doc_package (snd kv)) methods L w = (Ok L', w')).
  { destruct methods; [|exact H]. exact H. }
  clear H. revert L w Hloop.
  induction methods as [|kv methods IH]; intros L w Hloop.
  - cbn in Hloop. unfold ret in Hloop. injection Hloop as <- <-. cbn. lia.
  - cbn [for_each] in Hloop. bind_ok Hloop L1 w1 E.
    apply process_class_method_messages in E.
    apply IH in Hloop. rewrite Hloop, E. cbn [length]. lia.
Qed.

(** X18: a catalog in which no file has an ["objects"] key costs nothing: the run
    returns without a request and without touching a file. *)
Theorem catalog_without_objects_costs_nothing
    (import_all_modules : string -> list (string * FileEntry) * string)
    (directory repo_explanation unit_test_package doc_package platform
       engine model : string) (max_tokens : Z) (temperature : Q) (w : World) :
  Forall (fun item => snd item = None) (fst (import_all_modules directory)) ->
  generate_unit_test respond syntax_error import_all_modules directory
    repo_explanation unit_test_package doc_package platform engine model
    max_tokens temperature w = (Ok tt, w).
Proof.
  intros Hnone. unfold generate_unit_test, generate_unit_test_locals.
  destruct (import_all_modules directory) as [object_dict directory_dict].
  cbn [fst] in Hnone.
  match goal with |- context [for_each ?body object_dict ?L0] =>
    assert (Hloop : forall L, exists L', for_each body object_dict L w = (Ok L', w));
    [| destruct (Hloop L0) as (L' & Hrun); unfold bind; now rewrite Hrun]
  end.
  induction Hnone as [|[file_path entry] l Hentry Hl IH]; intros L.
  - now exists L.
  - cbn [snd] in Hentry. subst entry. cbn [for_each]. unfold bind.
    unfold process_file at 1. cbn [fst snd]. unfold ret at 1. apply IH.
Qed.

End CatalogFacts.

Lemma class_lengthens_test_session_witness :
  exists L' w',
    process_object Stubs.respond_valid Stubs.syntax_ok "pkg/mod.py" "sphinx"
      "GPT4" "gpt-4" 1000 0.4
      ("DataCheck", Methods [("a", Stubs.method "DataCheck" "a");
                             ("b", Stubs.method "DataCheck" "b");
                             ("c", Stubs.method "DataCheck" "c")])
      Examples.locals0 Examples.w_source = (Ok L', w') /\
    length (messages L') = length (messages Examples.locals0) + 2 * 3.
Proof.
  destruct (process_object Stubs.respond_valid Stubs.syntax_ok "pkg/mod.py"
              "sphinx" "GPT4" "gpt-4" 1000 0.4
              ("DataCheck", Methods [("a", Stubs.method "DataCheck" "a");
                                     ("b", Stubs.method "DataCheck" "b");
                                     ("c", Stubs.method "DataCheck" "c")])
              Examples.locals0 Examples.w_source) as [res w'] eqn:Hrun.
  pose proof Hrun as Hvalue. vm_compute in Hvalue.
  injection Hvalue as <- <-.
  do 2 eexists. split; [reflexivity |].
  exact (class_lengthens_test_session Stubs.respond_valid Stubs.syntax_ok
           _ _ _ _ _ _ _ _ _ _ _ _ Hrun).
Defined.

Lemma catalog_without_objects_costs_nothing_witness :
  generate_unit_test Stubs.respond_valid Stubs.syntax_ok
    Examples.catalog_data_only "test_code" "This repo holds data files."
    "pytest" "sphinx" "Python 3.9" "GPT4" "gpt-4" 1000 0.4 Stubs.w0
  = (Ok tt, Stubs.w0).
Proof.
  apply (catalog_without_objects_costs_nothing Stubs.respond_valid
           Stubs.syntax_ok Examples.catalog_data_only).
  repeat constructor.
Defined.

(** ** The documentation splice down to the bytes of the file *)

Module NewlineFacts.
Import PyStr PyStrFacts TextIO.

Lemma universal_without_cr (s : string) :
  contains s (String cr EmptyString) = false -> universal_newlines s = s.
Proof.
  induction s as [|c s IH]; intros H; [reflexivity |].
  rewrite SplitFacts.contains_char_cons in H.
  apply orb_false_iff in H as [Hc Hs]. cbn [universal_newlines].
  rewrite Ascii.eqb_sym, Hc. now rewrite (IH Hs).
Qed.

Lemma universal_has_no_cr_upto (n : nat) (s : string) :
  String.length s <= n ->
  contains (universal_newlines s) (String cr EmptyString) = false.
Proof.
  revert s. induction n as [|n IH]; intros s Hn.
  - destruct s; [reflexivity | cbn in Hn; lia].
  - destruct s as [|c s]; [reflexivity |]. cbn [String.length] in Hn.
    cbn [universal_newlines]. destruct (Ascii.eqb c cr) eqn:Hc.
    + rewrite SplitFacts.contains_char_cons. cbn [orb].
      change (Ascii.eqb cr lf) with false. cbn [orb].
      destruct s as [|d s]; [reflexivity |]. cbn [String.length] in Hn.
      destruct (Ascii.eqb d lf).
      * apply IH. lia.
      * apply IH. cbn [String.length]. lia.
    + rewrite SplitFacts.contains_char_cons, Ascii.eqb_sym, Hc. cbn [orb].
      apply IH. lia.
Qed.

(** What is read has no carriage return left. *)
Lemma universal_has_no_cr (s : string) :
  contains (universal_newlines s) (String cr EmptyString) = false.
Proof. apply (universal_has_no_cr_upto (String.length s)). lia. Qed.

Lemma universal_of_crlf (t : string) :
  contains t (String cr EmptyString) = false ->
  universal_newlines (platform_newlines OsPath.Nt t) = t.
Proof.
  unfold platform_newlines, replace, linesep.
  induction t as [|c t IH]; intros H; [reflexivity |].
  rewrite SplitFacts.contains_char_cons in H.
  apply orb_false_iff in H as [Hc Ht]. specialize (IH Ht).
  cbn [replace_go may_replace andb startswith].
  destruct (Ascii.eqb lf c) eqn:Hlf.
  - apply Ascii.eqb_eq in Hlf. subst c.
    cbn [String.length Nat.sub dec_count option_map].
    rewrite !app_cons, app_nil_l. cbn [universal_newlines].
    rewrite !Ascii.eqb_refl. change (Ascii.eqb lf cr) with false.
    now rewrite IH.
  - cbn [universal_newlines]. rewrite Ascii.eqb_sym, Hc. now rewrite IH.
Qed.

(** Reading back what was written gives the text that was written, for a
    text that was itself read. *)
Lemma read_after_write (os : OsPath.Flavour) (s : string) :
  universal_newlines (platform_newlines os (universal_newlines s))
  = universal_newlines s.
Proof.
  destruct os.
  - apply universal_without_cr, universal_has_no_cr.
  - apply universal_of_crlf, universal_has_no_cr.
Qed.

End NewlineFacts.



